(** * Electrical calculator: the derivation engine of [script.js]

    A shallow embedding of the page script ([getInputValues],
    [hasValidInputs], [calculateAll], [performCalculations],
    [saveCalculation], the export, the theme, the unit toggles, the
    validation marks, the start of the page and [debounce]) together with
    the properties of the specification that concern them.

    Numbers.  The numbers of the script are IEEE-754 doubles.  The
    derivation engine is embedded twice.

    - In the exact model the five readings and the derived quantities are
      values of [Q], and [*] and [/] are the exact operators of [Q]:
      rounding, overflow, underflow and the infinities are outside it, and
      [NaN] only arises as the result of a failed [parseFloat].  This
      model carries the page (fields, displays, chart, history, theme,
      units) and the properties that rest on the guards of the script and
      on the flow of its data, whatever the arithmetic.
    - In the binary64 model, the module [Double], the numbers are the
      primitive floats of the kernel: doubles, with the rounding of the
      script's own [*] and [/], their infinities, signed zeros and [NaN].
      It carries the properties that depend on the arithmetic: the sign
      of a computed field, the operand [||] picks for the energy, the
      truthiness test on the energy, and [P = V * I].

    The [null] of a result field is [None] in both. *)

From Stdlib Require Import Floats.
From Stdlib Require Import String Ascii QArith Qfield Qround Qabs Lqa Lia ZArith
  Bool List DecimalString.
Import ListNotations.

Local Open Scope Q_scope.

(** ** JavaScript numbers: comparison and truthiness *)

Module Js.

(** [x < y] on numbers, as a boolean. *)
Definition ltb (x y : Q) : bool :=
  (Qnum x * QDen y <? Qnum y * QDen x)%Z.

(** [x > 0], the guard used throughout the script. *)
Definition gt0 (x : Q) : bool := ltb 0 x.

(** Truthiness of a number: every number except zero (and [NaN], which
    the model has no value for). *)
Definition truthyNum (x : Q) : bool := negb (Qeq_bool x 0).

(** Truthiness of a field that holds a number or [null]. *)
Definition truthy (o : option Q) : bool :=
  match o with
  | Some x => truthyNum x
  | None => false
  end.

(** [a || b] where [a] is a number or [null] and [b] a number. *)
Definition or_else (a : option Q) (b : Q) : Q :=
  match a with
  | Some x => if truthyNum x then x else b
  | None => b
  end.

(** The number a field that holds a number or [null] stands for in an
    arithmetic expression: [null] converts to zero. *)
Definition toNumber (o : option Q) : Q :=
  match o with
  | Some x => x
  | None => 0
  end.

(** [a !== null]. *)
Definition notNull (o : option Q) : bool :=
  match o with
  | Some _ => true
  | None => false
  end.

End Js.

(** ** The data model *)

(** The object returned by [getInputValues]: the five readings. *)
Record Values : Type := mkValues {
  voltage : Q;
  current : Q;
  power : Q;
  time : Q;
  tariff : Q
}.

(** The object built by [calculateAll]; [None] is [null]. *)
Record Results : Type := mkResults {
  calculatedPower : option Q;
  calculatedCurrent : option Q;
  calculatedVoltage : option Q;
  energy : option Q;
  cost : option Q
}.

(** The five keys of a [Values] object, in property order. *)
Inductive Field : Type := Voltage | Current | Power | Time | Tariff.

Definition get (f : Field) (v : Values) : Q :=
  match f with
  | Voltage => voltage v
  | Current => current v
  | Power => power v
  | Time => time v
  | Tariff => tariff v
  end.

Definition set (f : Field) (x : Q) (v : Values) : Values :=
  match f with
  | Voltage => mkValues x (current v) (power v) (time v) (tariff v)
  | Current => mkValues (voltage v) x (power v) (time v) (tariff v)
  | Power => mkValues (voltage v) (current v) x (time v) (tariff v)
  | Time => mkValues (voltage v) (current v) (power v) x (tariff v)
  | Tariff => mkValues (voltage v) (current v) (power v) (time v) x
  end.

(** [Object.values(values)]. *)
Definition Object_values (v : Values) : list Q :=
  [voltage v; current v; power v; time v; tariff v].

(** ** The derivation engine *)

(** [hasValidInputs]: at least two of the values pass [v > 0]. *)
Definition hasValidInputs (values : Values) : bool :=
  let nonZeroValues := filter Js.gt0 (Object_values values) in
  (2 <=? length nonZeroValues)%nat.

(** [calculateAll], statement by statement. *)
Definition calculateAll (values : Values) : Results :=
  let '(mkValues voltage current power time tariff) := values in
  (* Power calculation (P = V x I) *)
  let calculatedPower :=
    if Js.gt0 voltage && Js.gt0 current then Some (voltage * current)
    else if Js.gt0 power then Some power
    else None in
  (* Current calculation (I = P / V) *)
  let calculatedCurrent :=
    if Js.gt0 power && Js.gt0 voltage then Some (power / voltage)
    else if Js.gt0 current then Some current
    else None in
  (* Voltage calculation (V = P / I) *)
  let calculatedVoltage :=
    if Js.gt0 power && Js.gt0 current then Some (power / current)
    else if Js.gt0 voltage then Some voltage
    else None in
  (* Energy calculation (E = P x t) *)
  let effectivePower := Js.or_else calculatedPower power in
  let energy :=
    if Js.gt0 effectivePower && Js.gt0 time
    then Some ((effectivePower * time) / 1000)
    else None in
  (* Cost calculation (Cost = Energy x Tariff) *)
  let cost :=
    if Js.truthy energy && Js.gt0 tariff
    then Some (Js.toNumber energy * tariff)
    else None in
  mkResults calculatedPower calculatedCurrent calculatedVoltage energy cost.

(** The constant [effectivePower] of [calculateAll], exposed for the
    statements about energy. *)
Definition effectivePower (values : Values) : Q :=
  Js.or_else (calculatedPower (calculateAll values)) (power values).

(** ** The derivation engine in binary64

    The same two functions over the doubles of the script.  [float] is
    the kernel's type of binary64 numbers; its [*], [/], [<?] and [=?] are
    the operations of IEEE-754 with rounding to nearest, ties to even,
    which are those of JavaScript. *)

Module Double.

Local Open Scope float_scope.

(** [x > 0]: false for either zero, for a negative number and for
    [NaN]. *)
Definition gt0 (x : float) : bool := 0 <? x.

(** Truthiness of a number: every number except [+0], [-0] and [NaN]. *)
Definition truthyNum (x : float) : bool := negb (is_zero x || is_nan x).

(** Truthiness of a field that holds a number or [null]. *)
Definition truthy (o : option float) : bool :=
  match o with
  | Some x => truthyNum x
  | None => false
  end.

(** [a || b] where [a] is a number or [null] and [b] a number. *)
Definition or_else (a : option float) (b : float) : float :=
  match a with
  | Some x => if truthyNum x then x else b
  | None => b
  end.

(** The number a field that holds a number or [null] stands for in an
    arithmetic expression: [null] converts to zero. *)
Definition toNumber (o : option float) : float :=
  match o with
  | Some x => x
  | None => 0
  end.

(** The object returned by [getInputValues]. *)
Record Values : Type := mkValues {
  voltage : float;
  current : float;
  power : float;
  time : float;
  tariff : float
}.

(** The object built by [calculateAll]; [None] is [null]. *)
Record Results : Type := mkResults {
  calculatedPower : option float;
  calculatedCurrent : option float;
  calculatedVoltage : option float;
  energy : option float;
  cost : option float
}.

(** [Object.values(values)]. *)
Definition Object_values (v : Values) : list float :=
  [voltage v; current v; power v; time v; tariff v].

(** [hasValidInputs]. *)
Definition hasValidInputs (values : Values) : bool :=
  let nonZeroValues := filter gt0 (Object_values values) in
  (2 <=? length nonZeroValues)%nat.

(** [calculateAll], statement by statement. *)
Definition calculateAll (values : Values) : Results :=
  let '(mkValues voltage current power time tariff) := values in
  (* Power calculation (P = V x I) *)
  let calculatedPower :=
    if gt0 voltage && gt0 current then Some (voltage * current)
    else if gt0 power then Some power
    else None in
  (* Current calculation (I = P / V) *)
  let calculatedCurrent :=
    if gt0 power && gt0 voltage then Some (power / voltage)
    else if gt0 current then Some current
    else None in
  (* Voltage calculation (V = P / I) *)
  let calculatedVoltage :=
    if gt0 power && gt0 current then Some (power / current)
    else if gt0 voltage then Some voltage
    else None in
  (* Energy calculation (E = P x t) *)
  let effectivePower := or_else calculatedPower power in
  let energy :=
    if gt0 effectivePower && gt0 time
    then Some ((effectivePower * time) / 1000)
    else None in
  (* Cost calculation (Cost = Energy x Tariff) *)
  let cost :=
    if truthy energy && gt0 tariff
    then Some (toNumber energy * tariff)
    else None in
  mkResults calculatedPower calculatedCurrent calculatedVoltage energy cost.

(** The constant [effectivePower] of [calculateAll]. *)
Definition effectivePower (values : Values) : float :=
  or_else (calculatedPower (calculateAll values)) (power values).

(** *** Vocabulary of the specification, for doubles *)

(** A field of a Derivation is determined when it is not [null]. *)
Definition determined (o : option float) : Prop := o <> None.

(** [x] is strictly positive: a positive number or [Infinity]. *)
Definition positive (x : float) : Prop := gt0 x = true.

(** [x] is a zero, a positive number or [Infinity]; not [NaN]. *)
Definition zeroOrPositive (x : float) : Prop := (0 <=? x) = true.

(** [x] is not below zero: it is zero, positive, [Infinity] or [NaN]. *)
Definition notNegative (x : float) : Prop := (x <? 0) = false.

(** [x < Infinity]: [x] is a finite number or [-Infinity]. *)
Definition belowInfinity (x : float) : Prop := (x <? infinity) = true.

(** Effective power in the words of the specification: the derived power
    when it is determined, the raw power field otherwise. *)
Definition claimedEffectivePower (v : Values) : float :=
  match calculatedPower (calculateAll v) with
  | Some p => p
  | None => power v
  end.

(** Effective power in amended words: the derived power when it is
    determined and not zero, the raw power field otherwise. *)
Definition specEffectivePower (v : Values) : float :=
  match calculatedPower (calculateAll v) with
  | Some p => if is_zero p then power v else p
  | None => power v
  end.

(** The three electrical outputs are determined and the power is the
    product, as the script's [*] computes it, of voltage and current. *)
Definition consistent (r : Results) : Prop :=
  exists p i u,
    calculatedPower r = Some p /\ calculatedCurrent r = Some i /\
    calculatedVoltage r = Some u /\ p = u * i.

(** Some concrete Readings.  A decimal literal stands for the double
    nearest to it, as in the script. *)
Definition reading (u i p t c : float) : Values := mkValues u i p t c.

(** Voltage and current whose product is below the smallest double, with
    a power and a time. *)
#[warnings="-inexact-float"]
Definition underflowingProduct : Values := reading 1e-200 1e-200 100 5 0.

(** The smallest positive double as the power, for one hour at tariff
    one. *)
#[warnings="-inexact-float"]
Definition underflowingEnergy : Values := reading 0 0 5e-324 1 1.

(** Both at once. *)
#[warnings="-inexact-float"]
Definition underflowingBoth : Values := reading 1e-200 1e-200 5e-324 1 2.

(** The smallest positive double as the power, under a large voltage. *)
#[warnings="-inexact-float"]
Definition underflowingQuotient : Values := reading 1e10 0 5e-324 0 0.

End Double.

(** A number of the given sign in the unfolded form of a double: a
    zero, an infinity or a finite number; not [NaN]. *)
Inductive signed (s : bool) : spec_float -> Prop :=
| signed_zero : signed s (S754_zero s)
| signed_infinity : signed s (S754_infinity s)
| signed_finite m e : signed s (S754_finite s m e).

(** ** The input collector *)

(** A number as [parseFloat] returns it: a finite number or [NaN].  The
    infinities, which the host returns for [Infinity] and for a literal
    beyond the range of the doubles, are no values of this type. *)
Inductive Parsed : Type :=
| NaN
| Num (x : Q).

(** [p || 0] for a parsed number: [NaN] and zero give the right operand. *)
Definition orZero (p : Parsed) : Q :=
  match p with
  | NaN => 0
  | Num x => if Js.truthyNum x then x else 0
  end.

(** The [value] strings of the five input elements. *)
Record InputFields : Type := mkInputFields {
  voltage_value : string;
  current_value : string;
  power_value : string;
  time_value : string;
  tariff_value : string
}.

(** The value of an input element nothing was typed in. *)
Definition empty : string := EmptyString.

Definition fieldValue (f : Field) (i : InputFields) : string :=
  match f with
  | Voltage => voltage_value i
  | Current => current_value i
  | Power => power_value i
  | Time => time_value i
  | Tariff => tariff_value i
  end.

(** *** A reader of decimal literals

    [parseFloat] belongs to the host, not to the script.  The development
    is parametric in it; [parseDecimal] is an instance to run the pipeline
    on concrete strings.  It trims leading white space and reads the
    longest prefix of the form sign, digits, fraction, exponent, as
    [parseFloat] does, and gives the exact value of that literal, where
    the host gives the double nearest to it (zero or [Infinity] for a
    literal beyond the range of the doubles).  The literal [Infinity] has
    no rational value and is not read. *)

Definition isWhiteSpace (c : ascii) : bool :=
  match nat_of_ascii c with
  | 9 | 10 | 11 | 12 | 13 | 32 => true
  | _ => false
  end%nat.

Fixpoint trimStart (s : string) : string :=
  match s with
  | String c s' => if isWhiteSpace c then trimStart s' else s
  | EmptyString => s
  end.

Definition digitOf (c : ascii) : option Z :=
  let n := Z.of_nat (nat_of_ascii c) in
  if ((48 <=? n) && (n <=? 57))%Z then Some (n - 48)%Z else None.

(** Reads a run of digits after the digits already read ([acc]); returns
    the number read so far, how many digits this run had, and the rest. *)
Fixpoint readDigits (s : string) (acc : Z) (n : Z) : Z * Z * string :=
  match s with
  | String c s' =>
      match digitOf c with
      | Some d => readDigits s' (10 * acc + d)%Z (n + 1)%Z
      | None => (acc, n, s)
      end
  | EmptyString => (acc, n, s)
  end.

(** Reads an optional sign; [true] is minus. *)
Definition readSign (s : string) : bool * string :=
  match s with
  | String "-" s' => (true, s')
  | String "+" s' => (false, s')
  | _ => (false, s)
  end.

(** Reads an exponent part; one without digits is not part of the
    literal and counts as exponent zero. *)
Definition readExponent (s : string) : Z :=
  match s with
  | String c s' =>
      if (Ascii.eqb c "e" || Ascii.eqb c "E")%bool then
        let (neg, s'') := readSign s' in
        let '(e, n, _) := readDigits s'' 0%Z 0%Z in
        if (n =? 0)%Z then 0%Z else if neg then (- e)%Z else e
      else 0%Z
  | EmptyString => 0%Z
  end.

Definition parseDecimal (s : string) : Parsed :=
  let (neg, s1) := readSign (trimStart s) in
  let '(ip, ni, s2) := readDigits s1 0%Z 0%Z in
  let '(m, nf, s3) :=
    match s2 with
    | String "." s' => readDigits s' ip 0%Z
    | _ => (ip, 0%Z, s2)
    end in
  if (ni + nf =? 0)%Z then NaN
  else
    let e := readExponent s3 in
    let m' := if neg then (- m)%Z else m in
    Num (inject_Z m' * 10 ^ (e - nf)).

(** ** The page: elements, module variables and storage *)

(** A result display: ['--'] dimmed, or the number [formatNumber] renders
    at full opacity.  The rendering itself (rounding to two places, the
    [k] and [M] suffixes) is presentation and is not modelled. *)
Inductive Slot : Type :=
| Dash
| Shown (x : Q).

(** The five result elements. *)
Record Display : Type := mkDisplay {
  powerResult : Slot;
  currentResult : Slot;
  voltageResult : Slot;
  energyResult : Slot;
  costResult : Slot
}.

(** An entry of [recentCalculations]. *)
Record Calculation : Type := mkCalculation {
  timestamp : string;
  inputs : Values;
  results : Results
}.

(** The functions of the calculation pipeline, to record which of them a
    run invokes. *)
Inductive Call : Type :=
| Call_getInputValues
| Call_hasValidInputs
| Call_clearResults
| Call_calculateAll
| Call_displayResults
| Call_updateChart
| Call_saveCalculation
| Call_displayRecentCalculations.

(** The state the pipeline reads and writes.
    - [fields]: the input elements' values;
    - [display]: the result elements;
    - [energyChart]: the data of the chart's dataset, [None] while the
      chart is [null];
    - [recentCalculations]: the module variable, newest entry first;
    - [storedCalculations]: the [localStorage] item ['recentCalculations'],
      as the list whose JSON it holds, [None] when the key is absent;
    - [recentPanel]: the entries rendered in the history panel;
    - [calls]: the functions invoked so far, latest first. *)
Record App : Type := mkApp {
  fields : InputFields;
  display : Display;
  energyChart : option (list Q);
  recentCalculations : list Calculation;
  storedCalculations : option (list Calculation);
  recentPanel : list Calculation;
  calls : list Call
}.

Definition set_display (d : Display) (s : App) : App :=
  mkApp (fields s) d (energyChart s) (recentCalculations s)
        (storedCalculations s) (recentPanel s) (calls s).

Definition set_energyChart (c : option (list Q)) (s : App) : App :=
  mkApp (fields s) (display s) c (recentCalculations s)
        (storedCalculations s) (recentPanel s) (calls s).

Definition set_recentCalculations (l : list Calculation) (s : App) : App :=
  mkApp (fields s) (display s) (energyChart s) l
        (storedCalculations s) (recentPanel s) (calls s).

Definition set_storedCalculations (o : option (list Calculation)) (s : App)
  : App :=
  mkApp (fields s) (display s) (energyChart s) (recentCalculations s)
        o (recentPanel s) (calls s).

Definition set_recentPanel (l : list Calculation) (s : App) : App :=
  mkApp (fields s) (display s) (energyChart s) (recentCalculations s)
        (storedCalculations s) l (calls s).

Definition set_calls (l : list Call) (s : App) : App :=
  mkApp (fields s) (display s) (energyChart s) (recentCalculations s)
        (storedCalculations s) (recentPanel s) l.

(** *** A state monad over the page *)

Definition M (A : Type) : Type := App -> A * App.

Definition ret {A : Type} (a : A) : M A := fun s => (a, s).

Definition bind {A B : Type} (m : M A) (k : A -> M B) : M B :=
  fun s => let (a, s') := m s in k a s'.

Definition gets {A : Type} (f : App -> A) : M A := fun s => (f s, s).

Definition modify (f : App -> App) : M unit := fun s => (tt, f s).

(** Entering a function of the pipeline. *)
Definition enter (c : Call) : M unit :=
  modify (fun s => set_calls (c :: calls s) s).

Definition exec {A : Type} (m : M A) (s : App) : App := snd (m s).

Declare Scope app_scope.
Delimit Scope app_scope with app.
Notation "x <- m ;; k" := (bind m (fun x => k))
  (at level 61, m at next level, right associativity) : app_scope.
Notation "m ;; k" := (bind m (fun _ => k))
  (at level 61, right associativity) : app_scope.

Local Open Scope app_scope.

(** ** The calculation pipeline *)

(** What a result element shows for a result field: [formatNumber] of
    the number when the field is not [null], ['--'] otherwise. *)
Definition slotOf (o : option Q) : Slot :=
  match o with
  | Some x => Shown x
  | None => Dash
  end.

Definition allDashes : Display := mkDisplay Dash Dash Dash Dash Dash.

(** What [displayResults] writes to the five result elements. *)
Definition displayOf (results : Results) : Display :=
  mkDisplay (slotOf (calculatedPower results))
            (slotOf (calculatedCurrent results))
            (slotOf (calculatedVoltage results))
            (slotOf (energy results))
            (slotOf (cost results)).

(** [displayResults]. *)
Definition displayResults (results : Results) : M unit :=
  enter Call_displayResults ;;
  modify (set_display (displayOf results)).

(** [clearResults]. *)
Definition clearResults : M unit :=
  enter Call_clearResults ;;
  modify (set_display allDashes).

(** [updateChart]: nothing without a chart, else the five results with
    [|| 0] as the dataset. *)
Definition updateChart (results : Results) : M unit :=
  enter Call_updateChart ;;
  chart <- gets energyChart ;;
  match chart with
  | None => ret tt
  | Some _ =>
      let data := [ Js.or_else (calculatedPower results) 0;
                    Js.or_else (calculatedCurrent results) 0;
                    Js.or_else (calculatedVoltage results) 0;
                    Js.or_else (energy results) 0;
                    Js.or_else (cost results) 0 ] in
      modify (set_energyChart (Some data))
  end.

(** [displayRecentCalculations]: the panel renders the current log. *)
Definition displayRecentCalculations : M unit :=
  enter Call_displayRecentCalculations ;;
  log <- gets recentCalculations ;;
  modify (set_recentPanel log).

(** The two statements of [saveCalculation] that change the log:
    [unshift], then [slice(0, 10)] when the length exceeds 10. *)
Definition unshiftAndTrim (calculation : Calculation)
  (log : list Calculation) : list Calculation :=
  let log' := calculation :: log in
  if (10 <? length log')%nat then firstn 10 log' else log'.

(** [saveCalculation]; [now] is what [new Date().toISOString()] returns
    when it runs. *)
Definition saveCalculation (now : string) (inputs : Values)
  (results : Results) : M unit :=
  enter Call_saveCalculation ;;
  let calculation := mkCalculation now inputs results in
  log <- gets recentCalculations ;;
  modify (set_recentCalculations (unshiftAndTrim calculation log)) ;;
  log' <- gets recentCalculations ;;
  modify (set_storedCalculations (Some log')) ;;
  displayRecentCalculations.

Section Pipeline.

(** The host's [parseFloat]. *)
Variable parseFloat : string -> Parsed.

(** [getInputValues], as a function of the input elements' values. *)
Definition getInputValues (i : InputFields) : Values :=
  {| voltage := orZero (parseFloat (voltage_value i));
     current := orZero (parseFloat (current_value i));
     power := orZero (parseFloat (power_value i));
     time := orZero (parseFloat (time_value i));
     tariff := orZero (parseFloat (tariff_value i)) |}.

(** [performCalculations]. *)
Definition performCalculations (now : string) : M unit :=
  enter Call_getInputValues ;;
  i <- gets fields ;;
  let values := getInputValues i in
  enter Call_hasValidInputs ;;
  if negb (hasValidInputs values) then
    clearResults
  else
    enter Call_calculateAll ;;
    let results := calculateAll values in
    displayResults results ;;
    updateChart results ;;
    saveCalculation now values results.

End Pipeline.

(** Running [saveCalculation] for each of a sequence of calculations, in
    call order. *)
Fixpoint saveAll (l : list Calculation) (s : App) : App :=
  match l with
  | [] => s
  | c :: l' =>
      saveAll l' (exec (saveCalculation (timestamp c) (inputs c) (results c)) s)
  end.

(** The page as [initializeApp] leaves it on a first visit: empty fields
    except the default tariff, cleared displays, an empty log and nothing
    stored; the chart is created with five zeros. *)
Definition initialApp : App :=
  mkApp (mkInputFields empty empty empty empty "8.5") allDashes
        (Some [0; 0; 0; 0; 0]) [] None [] [].

(** ** Vocabulary of the specification *)

(** A field of a Derivation is determined when it is not [null]. *)
Definition determined (o : option Q) : Prop := o <> None.

(** The precedence the specification gives for one electrical quantity:
    [derived], reconstructed from the other two raw fields [a] and [b],
    when both are positive; else the raw field [own] when it is positive;
    else undetermined. *)
Definition precedence (a b derived own : Q) (out : option Q) : Prop :=
  (0 < a /\ 0 < b -> out = Some derived) /\
  (~ (0 < a /\ 0 < b) -> 0 < own -> out = Some own) /\
  (~ (0 < a /\ 0 < b) -> ~ 0 < own -> out = None).

(** A Reading is usable, in the specification's words: two different
    fields are strictly positive. *)
Definition usable (v : Values) : Prop :=
  exists f g : Field, f <> g /\ 0 < get f v /\ 0 < get g v.

(** The three electrical outputs are determined and agree with
    [P = V * I]. *)
Definition consistent (r : Results) : Prop :=
  exists p i u,
    calculatedPower r = Some p /\ calculatedCurrent r = Some i /\
    calculatedVoltage r = Some u /\ p == u * i.

(** Replacing a negative value of field [f] by zero. *)
Definition zeroIfNegative (f : Field) (v : Values) : Values :=
  if Js.ltb (get f v) 0 then set f 0 v else v.

(** The Derivation all of whose fields are undetermined. *)
Definition allUndetermined : Results := mkResults None None None None None.

(** What [updateChart] leaves in the chart. *)
Definition chartAfter (results : Results) (chart : option (list Q))
  : option (list Q) :=
  match chart with
  | None => None
  | Some _ =>
      Some [ Js.or_else (calculatedPower results) 0;
             Js.or_else (calculatedCurrent results) 0;
             Js.or_else (calculatedVoltage results) 0;
             Js.or_else (energy results) 0;
             Js.or_else (cost results) 0 ]
  end.

(** The run from [s] to [s'] invoked the functions [l], in call order. *)
Definition invoked (s s' : App) (l : list Call) : Prop :=
  calls s' = rev l ++ calls s.

(** Some concrete Readings. *)
Definition reading (u i p t c : Q) : Values := mkValues u i p t c.

(** Three instants, as [toISOString] prints them. *)
Definition instant1 : string := "2024-01-01T00:00:00.000Z".
Definition instant2 : string := "2024-01-02T00:00:00.000Z".
Definition instant3 : string := "2024-03-04T05:06:07.000Z".

(** A page with input fields [i] that shows stale results and has one
    entry in its history. *)
Definition stalePage (i : InputFields) : App :=
  mkApp i (mkDisplay (Shown 1) (Shown 2) (Shown 3) Dash Dash)
        (Some [1; 2; 3; 0; 0])
        [mkCalculation instant1 (reading 3 2 0 0 0)
                       (calculateAll (reading 3 2 0 0 0))]
        None [] [].

(** A page with input fields [i] and nothing else: no chart, no history. *)
Definition barePage (i : InputFields) : App :=
  mkApp i allDashes None [] None [] [].

(** An entry recorded at time [ts]. *)
Definition entryAt (ts : string) : Calculation :=
  mkCalculation ts (reading 230 2 0 0 0) (calculateAll (reading 230 2 0 0 0)).

(** Eleven entries, in the order they are recorded. *)
Definition elevenEntries : list Calculation :=
  map entryAt ["t01"; "t02"; "t03"; "t04"; "t05"; "t06"; "t07"; "t08";
               "t09"; "t10"; "t11"]%string.

(** ** Further vocabulary for the derivation engine *)

(** At least two of voltage, current and power are positive. *)
Definition twoOfThree (v : Values) : Prop :=
  (0 < voltage v /\ 0 < current v) \/
  (0 < voltage v /\ 0 < power v) \/
  (0 < current v /\ 0 < power v).

(** ** Sessions: what happens to the page over time *)

Definition set_fields (i : InputFields) (s : App) : App :=
  mkApp i (display s) (energyChart s) (recentCalculations s)
        (storedCalculations s) (recentPanel s) (calls s).

(** The input fields after the user has made [text] the value of the
    element of field [f]. *)
Definition setFieldValue (f : Field) (text : string) (i : InputFields)
  : InputFields :=
  match f with
  | Voltage =>
      mkInputFields text (current_value i) (power_value i) (time_value i)
                    (tariff_value i)
  | Current =>
      mkInputFields (voltage_value i) text (power_value i) (time_value i)
                    (tariff_value i)
  | Power =>
      mkInputFields (voltage_value i) (current_value i) text (time_value i)
                    (tariff_value i)
  | Time =>
      mkInputFields (voltage_value i) (current_value i) (power_value i) text
                    (tariff_value i)
  | Tariff =>
      mkInputFields (voltage_value i) (current_value i) (power_value i)
                    (time_value i) text
  end.

(** The two things that happen to the calculator proper: the user edits
    a field, and [performCalculations] runs (from the debounced listener,
    a unit toggle or the keyboard shortcut) at some instant. *)
Inductive Event : Type :=
| Edit (f : Field) (text : string)
| Recalculate (now : string).

Definition step (parseFloat : string -> Parsed) (s : App) (e : Event) : App :=
  match e with
  | Edit f text => set_fields (setFieldValue f text (fields s)) s
  | Recalculate now => exec (performCalculations parseFloat now) s
  end.

Definition runEvents (parseFloat : string -> Parsed) (es : list Event)
  (s : App) : App :=
  fold_left (step parseFloat) es s.

(** The log, its stored copy and the panel agree, and the log has at
    most [bound] entries.  Nothing is stored before the first record. *)
Definition historyInSync (bound : nat) (s : App) : Prop :=
  (length (recentCalculations s) <= bound)%nat /\
  recentPanel s = recentCalculations s /\
  (storedCalculations s = Some (recentCalculations s) \/
   storedCalculations s = None /\ recentCalculations s = []).

(** The five fields of a Derivation, in the order of the chart's
    labels. *)
Definition resultFields (r : Results) : list (option Q) :=
  [calculatedPower r; calculatedCurrent r; calculatedVoltage r;
   energy r; cost r].

(** ** Export to CSV *)

(** What [exportToCSV] does to the outside: an [alert], or a file
    offered for download. *)
Inductive ExportOutcome : Type :=
| Alerted (message : string)
| Downloaded (filename : string) (content : string).

Definition newline : string := String (ascii_of_nat 10) EmptyString.

(** The currency sign of the unit columns as the source file has it on
    lines 505 and 510: the three characters U+00E2, U+201A and U+00B9,
    here as the seven bytes of their UTF-8 encoding. *)
Definition currencySign : string :=
  String (ascii_of_nat 195) (String (ascii_of_nat 162)
    (String (ascii_of_nat 226) (String (ascii_of_nat 128)
      (String (ascii_of_nat 154)
        (String (ascii_of_nat 194) (String (ascii_of_nat 185)
          EmptyString)))))).

(** [s.split('T')[0]]: the part of [s] before its first [T]. *)
Fixpoint beforeT (s : string) : string :=
  match s with
  | EmptyString => EmptyString
  | String c s' => if Ascii.eqb c "T" then EmptyString else String c (beforeT s')
  end.

Section CsvExport.

(** The host's [parseFloat] and its conversion of a number to a string
    in a template literal. *)
Variable parseFloat : string -> Parsed.
Variable numberToString : Q -> string.

(** [${x || 'N/A'}] for a result field [x]. *)
Definition orNA (o : option Q) : string :=
  if Js.truthy o then numberToString (Js.toNumber o) else "N/A"%string.

(** The array of lines [exportToCSV] joins. *)
Definition csvLines (timestamp : string) (values : Values)
  (results : Results) : list string :=
  [ "Timestamp,Parameter,Value,Unit";
    timestamp ++ ",Voltage," ++ numberToString (voltage values) ++ ",V";
    timestamp ++ ",Current," ++ numberToString (current values) ++ ",A";
    timestamp ++ ",Power," ++ numberToString (power values) ++ ",W";
    timestamp ++ ",Time," ++ numberToString (time values) ++ ",h";
    timestamp ++ ",Tariff," ++ numberToString (tariff values) ++ ","
      ++ currencySign ++ "/kWh";
    timestamp ++ ",Calculated Power," ++ orNA (calculatedPower results)
      ++ ",W";
    timestamp ++ ",Calculated Current," ++ orNA (calculatedCurrent results)
      ++ ",A";
    timestamp ++ ",Calculated Voltage," ++ orNA (calculatedVoltage results)
      ++ ",V";
    timestamp ++ ",Energy Consumption," ++ orNA (energy results) ++ ",kWh";
    timestamp ++ ",Total Cost," ++ orNA (cost results) ++ ","
      ++ currencySign
  ]%string.

(** [exportToCSV]; [localTime] is what [new Date().toLocaleString()]
    returns and [isoTime] what [new Date().toISOString()] returns when the
    export runs. *)
Definition exportToCSV (localTime isoTime : string) : M ExportOutcome :=
  enter Call_getInputValues ;;
  i <- gets fields ;;
  let values := getInputValues parseFloat i in
  enter Call_calculateAll ;;
  let results := calculateAll values in
  enter Call_hasValidInputs ;;
  if negb (hasValidInputs values) then
    ret (Alerted "Please enter valid values before exporting.")
  else
    let timestamp := localTime in
    let csvContent := String.concat newline (csvLines timestamp values results) in
    ret (Downloaded
           ("electrical-calculations-" ++ beforeT isoTime ++ ".csv")%string
           csvContent).


End CsvExport.

(** The state of the page apart from the record of calls. *)
Definition sameApart (s s' : App) : Prop :=
  fields s' = fields s /\ display s' = display s /\
  energyChart s' = energyChart s /\
  recentCalculations s' = recentCalculations s /\
  storedCalculations s' = storedCalculations s /\
  recentPanel s' = recentPanel s.

(** *** A printer with two decimals

    [toFixed] and the conversion of a number to a string belong to the
    host; the development is parametric in them.  [printFixed2] is an
    instance to run on concrete pages: for a number below [10^21] in
    absolute value it is what [toFixed(2)] writes for the exact value, the
    nearest multiple of one hundredth and the larger one on a tie.  The
    host rounds the double it holds, which can differ in the last digit
    when that double is not the exact value. *)

Definition digitsOf (n : Z) : string :=
  DecimalString.NilZero.string_of_uint (N.to_uint (Z.to_N n)).

Definition printFixed2 (x : Q) : string :=
  let n := Qfloor (Qabs x * 100 + (1 # 2)) in
  let whole := (n / 100)%Z in
  let cents := (n mod 100)%Z in
  ((if Js.ltb x 0 then "-" else empty)
     ++ digitsOf whole ++ "."
     ++ (if (cents <? 10)%Z then "0" else empty) ++ digitsOf cents)%string.

(** ** The whole page: theme, validation marks and unit toggles *)

(** A value for each of the five input elements. *)
Record Five (A : Type) : Type := mkFive {
  atVoltage : A;
  atCurrent : A;
  atPower : A;
  atTime : A;
  atTariff : A
}.

Arguments mkFive {A}.
Arguments atVoltage {A}.
Arguments atCurrent {A}.
Arguments atPower {A}.
Arguments atTime {A}.
Arguments atTariff {A}.

Definition at5 {A : Type} (f : Field) (x : Five A) : A :=
  match f with
  | Voltage => atVoltage x
  | Current => atCurrent x
  | Power => atPower x
  | Time => atTime x
  | Tariff => atTariff x
  end.

Definition upd5 {A : Type} (f : Field) (a : A) (x : Five A) : Five A :=
  match f with
  | Voltage => mkFive a (atCurrent x) (atPower x) (atTime x) (atTariff x)
  | Current => mkFive (atVoltage x) a (atPower x) (atTime x) (atTariff x)
  | Power => mkFive (atVoltage x) (atCurrent x) a (atTime x) (atTariff x)
  | Time => mkFive (atVoltage x) (atCurrent x) (atPower x) a (atTariff x)
  | Tariff => mkFive (atVoltage x) (atCurrent x) (atPower x) (atTime x) a
  end.

Definition all5 {A : Type} (a : A) : Five A := mkFive a a a a a.

(** The classes [valid] and [invalid] of an input element. *)
Record Marks : Type := mkMarks {
  valid : bool;
  invalid : bool
}.

Definition noMarks : Marks := mkMarks false false.

(** An element that carries a [data-unit] attribute or the class
    [unit-btn]: its attribute ([None] when it has none), its text, and
    whether it has the classes [unit-btn] and [active]. *)
Record UnitButton : Type := mkUnitButton {
  data_unit : option string;
  textContent : string;
  unit_btn : bool;
  active : bool
}.

Definition set_active (a : bool) (b : UnitButton) : UnitButton :=
  mkUnitButton (data_unit b) (textContent b) (unit_btn b) a.

(** The text of the theme toggle's icon. *)
Inductive Icon : Type :=
| Moon
| Sun.

(** The theme: the module variable, the [data-theme] attribute of the
    document element, the [localStorage] item ['theme'], the icon, and
    the [data-theme] under which the chart's colours were last read from
    the style sheet. *)
Record ThemeState : Type := mkThemeState {
  currentTheme : string;
  data_theme : option string;
  storedTheme : option string;
  themeIcon : Icon;
  chartPalette : option string
}.

(** The page.
    - [app]: the state of the calculation pipeline;
    - [theme]: the theme;
    - [minAttr]: the [min] attribute of each input element;
    - [marks]: the validation classes of each input element;
    - [originalUnit]: [dataset.originalUnit] of each input element,
      [None] while it is undefined;
    - [buttons]: the unit buttons, in document order;
    - [focused]: the input element that has the focus. *)
Record Page : Type := mkPage {
  app : App;
  theme : ThemeState;
  minAttr : Five string;
  marks : Five Marks;
  originalUnit : Five (option string);
  buttons : list UnitButton;
  focused : option Field
}.

Definition set_app (a : App) (p : Page) : Page :=
  mkPage a (theme p) (minAttr p) (marks p) (originalUnit p) (buttons p)
         (focused p).

Definition set_theme (t : ThemeState) (p : Page) : Page :=
  mkPage (app p) t (minAttr p) (marks p) (originalUnit p) (buttons p)
         (focused p).

Definition set_marks (m : Five Marks) (p : Page) : Page :=
  mkPage (app p) (theme p) (minAttr p) m (originalUnit p) (buttons p)
         (focused p).

Definition set_originalUnit (u : Five (option string)) (p : Page) : Page :=
  mkPage (app p) (theme p) (minAttr p) (marks p) u (buttons p) (focused p).

Definition set_buttons (b : list UnitButton) (p : Page) : Page :=
  mkPage (app p) (theme p) (minAttr p) (marks p) (originalUnit p) b
         (focused p).

Definition set_focused (f : option Field) (p : Page) : Page :=
  mkPage (app p) (theme p) (minAttr p) (marks p) (originalUnit p)
         (buttons p) f.

(** Running a function of the pipeline on the page. *)
Definition onApp {A : Type} (m : M A) (p : Page) : Page :=
  set_app (exec m (app p)) p.

(** *** Theme *)

(** [updateChartTheme]: with a chart, its colours are read again from
    the style sheet under the current [data-theme]. *)
Definition updateChartTheme (p : Page) : Page :=
  match energyChart (app p) with
  | None => p
  | Some _ =>
      let t := theme p in
      set_theme (mkThemeState (currentTheme t) (data_theme t) (storedTheme t)
                              (themeIcon t) (data_theme t)) p
  end.

(** [setTheme]. *)
Definition setTheme (name : string) (p : Page) : Page :=
  let t := theme p in
  let p' :=
    set_theme (mkThemeState name (Some name) (Some name)
                 (if String.eqb name "light" then Moon else Sun)
                 (chartPalette t)) p in
  match energyChart (app p') with
  | Some _ => updateChartTheme p'
  | None => p'
  end.

(** [toggleTheme]. *)
Definition toggleTheme (p : Page) : Page :=
  let newTheme :=
    if String.eqb (currentTheme (theme p)) "light" then "dark"%string
    else "light"%string in
  setTheme newTheme p.

(** *** Start of the page *)

(** [x || 'light'] for what [localStorage.getItem('theme')] returns. *)
Definition orLight (saved : option string) : string :=
  match saved with
  | Some EmptyString => "light"
  | Some t => t
  | None => "light"
  end.

(** [initializeApp], for a stored history item that is absent or is the
    JSON text of a list of entries: the stored history is that list, of
    any length.  On an item [JSON.parse] rejects the function throws after
    [setTheme]; that start, which registers no listener and creates no
    chart, is outside this definition. *)
Definition initializeApp (p : Page) : Page :=
  let savedTheme := orLight (storedTheme (theme p)) in
  let p1 := setTheme savedTheme p in
  let p2 :=
    match storedCalculations (app p1) with
    | Some saved => set_app (set_recentCalculations saved (app p1)) p1
    | None => p1
    end in
  set_app (set_fields (setFieldValue Tariff "8.5" (fields (app p2))) (app p2))
          p2.

(** [loadRecentCalculations]. *)
Definition loadRecentCalculations (p : Page) : Page :=
  onApp displayRecentCalculations p.

(** What [initializeChart] leaves: a chart with five zeros, coloured
    from the style sheet under the current [data-theme]. *)
Definition initializeChart (p : Page) : Page :=
  let t := theme p in
  set_theme (mkThemeState (currentTheme t) (data_theme t) (storedTheme t)
                          (themeIcon t) (data_theme t))
    (set_app (set_energyChart (Some [0; 0; 0; 0; 0]) (app p)) p).

(** The [DOMContentLoaded] listener; [setupEventListeners] only
    registers listeners. *)
Definition onDOMContentLoaded (p : Page) : Page :=
  initializeChart (loadRecentCalculations (initializeApp p)).

(** *** Validation marks, unit toggles and reset *)

(** [a < b] on parsed numbers: false when either is [NaN]. *)
Definition parsedLtb (a b : Parsed) : bool :=
  match a, b with
  | Num x, Num y => Js.ltb x y
  | _, _ => false
  end.

Definition isNaN (a : Parsed) : bool :=
  match a with
  | NaN => true
  | Num _ => false
  end.

(** Whether a unit button matches the selector
    [[data-unit="a"], [data-unit="b"]]. *)
Definition matchesUnits (a b : string) (btn : UnitButton) : bool :=
  match data_unit btn with
  | Some u => (String.eqb u a || String.eqb u b)%bool
  | None => false
  end.

(** The first statement of [toggleUnitButtons]: every button of the
    group loses [active]. *)
Definition deactivate (inGroup : UnitButton -> bool) (bs : list UnitButton)
  : list UnitButton :=
  map (fun b => if inGroup b then set_active false b else b) bs.

(** The second statement: the button at position [k] becomes
    [active]. *)
Fixpoint activateAt (k : nat) (bs : list UnitButton) : list UnitButton :=
  match bs, k with
  | [], _ => []
  | b :: bs', O => set_active true b :: bs'
  | b :: bs', S k' => b :: activateAt k' bs'
  end.

(** [toggleUnitButtons(buttons, activeButton)], for the group selected by
    [inGroup] and the button at position [k] of the document. *)
Definition toggleUnitButtons (inGroup : UnitButton -> bool) (k : nat)
  (bs : list UnitButton) : list UnitButton :=
  activateAt k (deactivate inGroup bs).

(** The loop of [resetUnitToggles] over the [unit-btn] elements. *)
Definition resetButtons (bs : list UnitButton) : list UnitButton :=
  map (fun b =>
         if unit_btn b then
           set_active
             (String.eqb (textContent b) "V" || String.eqb (textContent b) "A"
              || String.eqb (textContent b) "W"
              || String.eqb (textContent b) "h")%bool b
         else b) bs.

(** [resetUnitToggles]. *)
Definition resetUnitToggles (p : Page) : Page :=
  let p' := set_buttons (resetButtons (buttons p)) p in
  set_originalUnit
    (mkFive (Some empty) (Some empty) (Some empty) (Some empty)
            (atTariff (originalUnit p'))) p'.

(** [resetAll]. *)
Definition resetAll (p : Page) : Page :=
  let p1 :=
    set_app (set_fields (mkInputFields empty empty empty empty "8.5")
                        (app p)) p in
  let p2 := resetUnitToggles p1 in
  let p3 := onApp clearResults p2 in
  let p4 :=
    match energyChart (app p3) with
    | Some _ => set_app (set_energyChart (Some [0; 0; 0; 0; 0]) (app p3)) p3
    | None => p3
    end in
  let p5 := set_marks (all5 noMarks) p4 in
  set_focused (Some Voltage) p5.

Section PageScript.

(** The host's [parseFloat] and [toFixed(2)]. *)
Variable parseFloat : string -> Parsed.
Variable toFixed2 : Q -> string.

(** [validateInput(input)] for the input element of field [f]. *)
Definition validateInput (f : Field) (p : Page) : Page :=
  let text := fieldValue f (fields (app p)) in
  let value := parseFloat text in
  let min := parseFloat (at5 f (minAttr p)) in
  if String.eqb text empty then
    set_marks (upd5 f noMarks (marks p)) p
  else if (isNaN value || parsedLtb value min)%bool then
    set_marks (upd5 f (mkMarks false true) (marks p)) p
  else
    set_marks (upd5 f (mkMarks true false) (marks p)) p.

(** The [input] listener of [setupInputValidation]. *)
Definition clearMarks (f : Field) (p : Page) : Page :=
  set_marks (upd5 f noMarks (marks p)) p.

(** The body shared by [convertVoltageUnits], [convertCurrentUnits],
    [convertPowerUnits] and [convertTimeUnits], which differ in the
    input element, the two units and the factor.  [None] is the
    [TypeError] of reading [textContent] when no element matches the
    selector; nothing has been written by then. *)
Definition convertUnits (f : Field) (base alt : string) (factor : Q)
  (now : string) (p : Page) : option Page :=
  match parseFloat (fieldValue f (fields (app p))) with
  | NaN => Some p
  | Num value =>
      match find (matchesUnits base alt) (buttons p) with
      | None => None
      | Some first =>
          let activeUnit := textContent first in
          let write (x : Q) (unit : string) :=
            set_originalUnit (upd5 f (Some unit) (originalUnit p))
              (set_app (set_fields (setFieldValue f (toFixed2 x)
                                      (fields (app p))) (app p)) p) in
          let p' :=
            if (String.eqb activeUnit alt
                && negb (match at5 f (originalUnit p) with
                         | Some u => String.eqb u alt
                         | None => false
                         end))%bool
            then write (value * factor) alt
            else if (String.eqb activeUnit base
                     && match at5 f (originalUnit p) with
                        | Some u => String.eqb u alt
                        | None => false
                        end)%bool
            then write (value / factor) base
            else p in
          Some (onApp (performCalculations parseFloat now) p')
      end
  end.

Definition convertVoltageUnits : string -> Page -> option Page :=
  convertUnits Voltage "V" "kV" 1000.

Definition convertCurrentUnits : string -> Page -> option Page :=
  convertUnits Current "A" "mA" 1000.

Definition convertPowerUnits : string -> Page -> option Page :=
  convertUnits Power "W" "kW" 1000.

Definition convertTimeUnits : string -> Page -> option Page :=
  convertUnits Time "h" "min" 60.

(** The units and the factor of the toggle of a field; the tariff has
    none. *)
Definition unitsOf (f : Field) : option (string * string * Q) :=
  match f with
  | Voltage => Some ("V", "kV", 1000)
  | Current => Some ("A", "mA", 1000)
  | Power => Some ("W", "kW", 1000)
  | Time => Some ("h", "min", 60)
  | Tariff => None
  end%string.

(** The [click] listener [setupUnitToggles] puts on the buttons of the
    group of field [f], for a click on the button at position [k] of the
    document.  There is no listener on a button outside the group.  An
    exception of the conversion ends the listener after the toggle. *)
Definition clickUnit (f : Field) (k : nat) (now : string) (p : Page) : Page :=
  match unitsOf f with
  | None => p
  | Some (base, alt, factor) =>
      match nth_error (buttons p) k with
      | Some btn =>
          if matchesUnits base alt btn then
            let p1 :=
              set_buttons
                (toggleUnitButtons (matchesUnits base alt) k (buttons p)) p in
            match convertUnits f base alt factor now p1 with
            | Some p2 => p2
            | None => p1
            end
          else p
      | None => p
      end
  end.

End PageScript.

(** *** A session on the page *)

(** What the user makes the page do.
    - [UserEdit]: an [input] event that leaves [text] in a field (the
      listener of [setupInputValidation] removes the marks; the debounced
      listener leads to a later [Run]);
    - [UserBlur]: the field loses the focus and is validated;
    - [Run]: [performCalculations] runs, from a debounced listener or
      the keyboard shortcut;
    - [ClickUnit]: a click on the unit button at a position of the
      document, for the group of a field;
    - [ClickReset], [ClickTheme], [ClickExport]: the reset, theme and
      export buttons or their shortcuts. *)
Inductive PageEvent : Type :=
| UserEdit (f : Field) (text : string)
| UserBlur (f : Field)
| Run (now : string)
| ClickUnit (f : Field) (k : nat) (now : string)
| ClickReset
| ClickTheme
| ClickExport (localTime isoTime : string).

Section Session.

Variable parseFloat : string -> Parsed.
Variable toFixed2 : Q -> string.
Variable numberToString : Q -> string.

Definition pageStep (p : Page) (e : PageEvent) : Page :=
  match e with
  | UserEdit f text =>
      clearMarks f
        (set_app (set_fields (setFieldValue f text (fields (app p))) (app p))
                 p)
  | UserBlur f => validateInput parseFloat f p
  | Run now => onApp (performCalculations parseFloat now) p
  | ClickUnit f k now => clickUnit parseFloat toFixed2 f k now p
  | ClickReset => resetAll p
  | ClickTheme => toggleTheme p
  | ClickExport localTime isoTime =>
      onApp (exportToCSV parseFloat numberToString localTime isoTime) p
  end.

Definition runPage (es : list PageEvent) (p : Page) : Page :=
  fold_left pageStep es p.

End Session.

(** A document as the script finds it when it is loaded: the module
    variables have their initial values (no chart, theme [light], an
    empty log) and no input element has a [data-original-unit]
    attribute.  Nothing is asked of the stored history. *)
Definition scriptLoaded (p : Page) : Prop :=
  energyChart (app p) = None /\
  currentTheme (theme p) = "light"%string /\
  recentCalculations (app p) = [] /\
  originalUnit p = all5 None.

(** The number of entries of the stored history, none when there is no
    stored history. *)
Definition storedLength (p : Page) : nat :=
  match storedCalculations (app p) with
  | Some saved => length saved
  | None => 0
  end.

(** The same with a stored history, if there is one, of at most ten
    entries. *)
Definition freshlyLoaded (p : Page) : Prop :=
  energyChart (app p) = None /\
  currentTheme (theme p) = "light"%string /\
  recentCalculations (app p) = [] /\
  originalUnit p = all5 None /\
  match storedCalculations (app p) with
  | Some saved => (length saved <= 10)%nat
  | None => True
  end.

(** The theme is the same in the module variable, the attribute and the
    storage, the icon is the one for it, and the chart, if there is one,
    has its colours. *)
Definition themeCoherent (p : Page) : Prop :=
  let t := theme p in
  data_theme t = Some (currentTheme t) /\
  storedTheme t = Some (currentTheme t) /\
  themeIcon t = (if String.eqb (currentTheme t) "light" then Moon else Sun) /\
  (energyChart (app p) <> None -> chartPalette t = Some (currentTheme t)).

(** A page with neither theme attribute nor chart, the given storage
    and the given buttons: what a browser has before the script runs. *)
Definition loadedPage (savedTheme : option string)
  (saved : option (list Calculation)) (bs : list UnitButton) : Page :=
  mkPage (mkApp (mkInputFields empty empty empty empty empty) allDashes None
                [] saved [] [])
         (mkThemeState "light" None savedTheme Moon None)
         (mkFive "0" "0" "0" "0" "0")%string (all5 noMarks) (all5 None) bs
         None.

(** Four pairs of unit buttons, the base unit first. *)
Definition baseFirstButtons : list UnitButton :=
  [ mkUnitButton (Some "V") "V" true true;
    mkUnitButton (Some "kV") "kV" true false;
    mkUnitButton (Some "A") "A" true true;
    mkUnitButton (Some "mA") "mA" true false;
    mkUnitButton (Some "W") "W" true true;
    mkUnitButton (Some "kW") "kW" true false;
    mkUnitButton (Some "h") "h" true true;
    mkUnitButton (Some "min") "min" true false ]%string.

(** The same with the voltage pair in the other order. *)
Definition kiloFirstButtons : list UnitButton :=
  [ mkUnitButton (Some "kV") "kV" true false;
    mkUnitButton (Some "V") "V" true true ]%string.

(** What the script never writes on a unit button: its attribute, its
    text and its class [unit-btn]. *)
Definition label (b : UnitButton) : option string * string * bool :=
  (data_unit b, textContent b, unit_btn b).

(** The text of the first button that matches the selector of a group:
    what the conversions read as the active unit. *)
Definition firstUnitText (base alt : string) (bs : list UnitButton)
  : option string :=
  option_map textContent (find (matchesUnits base alt) bs).

(** The page apart from which unit buttons are marked [active]. *)
Definition apartFromActive (p : Page) : Page := set_buttons [] p.

(** What holds of every page a session reaches: the history is in sync
    and within [bound], the theme is coherent, there is a chart, and an
    input element whose [dataset.originalUnit] is the alternative unit of
    its group belongs to a group whose first button carries that unit as
    its text. *)
Definition sessionInvariant (bound : nat) (p : Page) : Prop :=
  historyInSync bound (app p) /\
  themeCoherent p /\
  energyChart (app p) <> None /\
  (forall f base alt factor,
      unitsOf f = Some (base, alt, factor) ->
      at5 f (originalUnit p) = Some alt ->
      firstUnitText base alt (buttons p) = Some alt).

(** The page a conversion leaves before it runs the pipeline, for the
    active unit it read and the value it parsed: the two branches of the
    [if] of the [convert...Units] functions. *)
Definition rescaled (toFixed2 : Q -> string) (f : Field) (base alt : string)
  (factor : Q) (activeUnit : string) (value : Q) (p : Page) : Page :=
  let isAlt := match at5 f (originalUnit p) with
               | Some u => String.eqb u alt
               | None => false
               end in
  let write (x : Q) (unit : string) :=
    set_originalUnit (upd5 f (Some unit) (originalUnit p))
      (set_app (set_fields (setFieldValue f (toFixed2 x) (fields (app p)))
                           (app p)) p) in
  if (String.eqb activeUnit alt && negb isAlt)%bool
  then write (value * factor) alt
  else if (String.eqb activeUnit base && isAlt)%bool
  then write (value / factor) base
  else p.

(** What a conversion can change of the input element of field [f]: its
    text and its [dataset.originalUnit]. *)
Definition elementState (f : Field) (p : Page) : string * option string :=
  (fieldValue f (fields (app p)), at5 f (originalUnit p)).

Definition Field_eq_dec (f g : Field) : {f = g} + {f <> g}.
Proof. decide equality. Defined.

(** A page that has started with the given buttons and nothing stored,
    and the same after the user has typed [text] for the voltage. *)
Definition startedPage (bs : list UnitButton) : Page :=
  onDOMContentLoaded (loadedPage None None bs).

Definition voltageTyped (text : string) (bs : list UnitButton) : Page :=
  pageStep parseDecimal printFixed2 printFixed2 (startedPage bs)
           (UserEdit Voltage text).

(** ** Debouncing

    [debounce(func, wait)] returns a closure over the variable
    [timeout].  The host's timers are modelled as far as the closure uses
    them: [setTimeout] registers a callback under a fresh identifier with
    the time it is due, [clearTimeout] removes the callback with the
    given identifier, if there is one, and the host runs a registered
    callback, once, at some time not before it is due.  Time is counted
    in milliseconds. *)

Section Debounce.

(** The arguments the debounced function is called with. *)
Variable Args : Type.

(** A callback [later] registered with [setTimeout]: its identifier,
    the time it is due, and the arguments it closes over. *)
Record Timer : Type := mkTimer {
  timerId : nat;
  due : Z;
  payload : Args
}.

(** The closure and what it has caused: the variable [timeout]
    ([None] while undefined), the next identifier the host will give, the
    registered callbacks of the closure, and the calls of [func] so far,
    latest first. *)
Record Debounced : Type := mkDebounced {
  timeout : option nat;
  nextId : nat;
  pending : list Timer;
  invocations : list Args
}.

Definition newDebounced : Debounced := mkDebounced None 0 [] [].

(** [clearTimeout(id)]. *)
Definition clearTimeout (id : option nat) (ts : list Timer) : list Timer :=
  match id with
  | Some i => filter (fun t => negb (timerId t =? i)%nat) ts
  | None => ts
  end.

(** [executedFunction(...args)], called at time [now]. *)
Definition executedFunction (wait now : Z) (args : Args) (d : Debounced)
  : Debounced :=
  let ts := clearTimeout (timeout d) (pending d) in
  let id := nextId d in
  mkDebounced (Some id) (S id) (ts ++ [mkTimer id (now + wait)%Z args])
              (invocations d).

(** The callback [later], for the arguments it closes over. *)
Definition later (args : Args) (d : Debounced) : Debounced :=
  mkDebounced (timeout d) (nextId d) (clearTimeout (timeout d) (pending d))
              (args :: invocations d).

(** The host runs the callback registered under [id] at time [now]:
    possible when it is registered and due; it is no longer registered
    when it runs. *)
Definition fire (now : Z) (id : nat) (d : Debounced) : option Debounced :=
  match find (fun t => (timerId t =? id)%nat) (pending d) with
  | Some t =>
      if (due t <=? now)%Z then
        Some (later (payload t)
                (mkDebounced (timeout d) (nextId d)
                   (filter (fun t' => negb (timerId t' =? id)%nat) (pending d))
                   (invocations d)))
      else None
  | None => None
  end.

(** What happens to a debounced function. *)
Inductive DebounceEvent : Type :=
| Invoke (now : Z) (args : Args)
| Fire (now : Z) (id : nat).

Definition debounceStep (wait : Z) (d : option Debounced) (e : DebounceEvent)
  : option Debounced :=
  match d with
  | None => None
  | Some d =>
      match e with
      | Invoke now args => Some (executedFunction wait now args d)
      | Fire now id => fire now id d
      end
  end.

(** A run of events; [None] when the host is asked to run a callback
    that is not registered or not yet due. *)
Definition runDebounced (wait : Z) (es : list DebounceEvent) (d : Debounced)
  : option Debounced :=
  fold_left (debounceStep wait) es (Some d).

Definition isInvoke (e : DebounceEvent) : bool :=
  match e with
  | Invoke _ _ => true
  | Fire _ _ => false
  end.

(** At most one callback is registered, under the identifier in
    [timeout]; identifiers in use are below the next one. *)
Definition debounceInv (d : Debounced) : Prop :=
  (match timeout d with
   | Some i => (i < nextId d)%nat
   | None => True
   end) /\
  (pending d = [] \/
   exists t, pending d = [t] /\ timeout d = Some (timerId t)).

End Debounce.

Arguments mkTimer {Args}.
Arguments timerId {Args}.
Arguments due {Args}.
Arguments payload {Args}.
Arguments mkDebounced {Args}.
Arguments timeout {Args}.
Arguments nextId {Args}.
Arguments pending {Args}.
Arguments invocations {Args}.
Arguments newDebounced {Args}.
Arguments executedFunction {Args}.
Arguments later {Args}.
Arguments fire {Args}.
Arguments Invoke {Args}.
Arguments Fire {Args}.
Arguments runDebounced {Args}.
Arguments debounceStep {Args}.
Arguments debounceInv {Args}.
Arguments isInvoke {Args}.
Arguments clearTimeout {Args}.

(** *** The debounced listeners of the five input fields

    [setupEventListeners] gives each input element its own
    [debounce(performCalculations, 300)]: five closures, each with its
    own [timeout].  The argument of the debounced function is the event,
    which [performCalculations] does not read. *)

Record Listening : Type := mkListening {
  listened : App;
  listeners : Five (Debounced unit)
}.

(** An [input] event on a field at a time, which leaves a text in the
    field, and the host running a callback of the listener of a field. *)
Inductive ListenEvent : Type :=
| InputEvent (f : Field) (text : string) (now : Z)
| TimerEvent (f : Field) (now : Z) (id : nat).

Section Listeners.

Variable parseFloat : string -> Parsed.

(** What [new Date().toISOString()] returns at a time. *)
Variable toISOString : Z -> string.

Definition listenStep (s : option Listening) (e : ListenEvent)
  : option Listening :=
  match s with
  | None => None
  | Some s =>
      match e with
      | InputEvent f text now =>
          Some (mkListening
                  (set_fields (setFieldValue f text (fields (listened s)))
                              (listened s))
                  (upd5 f (executedFunction 300 now tt (at5 f (listeners s)))
                        (listeners s)))
      | TimerEvent f now id =>
          match fire now id (at5 f (listeners s)) with
          | Some d =>
              Some (mkListening
                      (exec (performCalculations parseFloat (toISOString now))
                            (listened s))
                      (upd5 f d (listeners s)))
          | None => None
          end
      end
  end.

Definition runListening (es : list ListenEvent) (s : Listening)
  : option Listening :=
  fold_left listenStep es (Some s).

End Listeners.

(** The five closures as [setupEventListeners] creates them. *)
Definition newListeners : Five (Debounced unit) := all5 newDebounced.

(** * Properties *)

(** ** Numbers *)

Module JsFacts.
Import Js.

Lemma ltb_lt x y : ltb x y = true <-> x < y.
Proof. unfold ltb, Qlt. apply Z.ltb_lt. Qed.

Lemma ltb_nlt x y : ltb x y = false <-> ~ x < y.
Proof.
  rewrite <- ltb_lt. destruct (ltb x y); split; congruence.
Qed.

Lemma gt0_lt x : gt0 x = true <-> 0 < x.
Proof. apply ltb_lt. Qed.

Lemma gt0_nlt x : gt0 x = false <-> ~ 0 < x.
Proof. apply ltb_nlt. Qed.

Lemma gt0_reflect x : reflect (0 < x) (gt0 x).
Proof. apply iff_reflect. symmetry. apply gt0_lt. Qed.

Lemma gt0_nonpos x : x <= 0 -> gt0 x = false.
Proof. intros H. apply gt0_nlt. lra. Qed.

Lemma gt0_truthy x : gt0 x = true -> truthyNum x = true.
Proof.
  intros H%gt0_lt. unfold truthyNum.
  destruct (Qeq_bool x 0) eqn:E; [|reflexivity].
  apply Qeq_bool_eq in E. lra.
Qed.

Lemma gt0_mult x y : gt0 x = true -> gt0 y = true -> gt0 (x * y) = true.
Proof.
  rewrite !gt0_lt. apply Qmult_lt_0_compat.
Qed.

Lemma gt0_div x y : gt0 x = true -> gt0 y = true -> gt0 (x / y) = true.
Proof.
  rewrite !gt0_lt. intros Hx Hy.
  apply Qlt_shift_div_l; [assumption|]. lra.
Qed.

End JsFacts.

(** ** The derivation engine *)

(** Case analysis on every [> 0] guard in the goal. *)
Ltac guards :=
  repeat match goal with
         | |- context [Js.gt0 ?x] => destruct (JsFacts.gt0_reflect x)
         end.

Lemma calculatedPower_eq (v : Values) :
  calculatedPower (calculateAll v) =
    if Js.gt0 (voltage v) && Js.gt0 (current v)
    then Some (voltage v * current v)
    else if Js.gt0 (power v) then Some (power v) else None.
Proof. destruct v; reflexivity. Qed.

Lemma calculatedCurrent_eq (v : Values) :
  calculatedCurrent (calculateAll v) =
    if Js.gt0 (power v) && Js.gt0 (voltage v)
    then Some (power v / voltage v)
    else if Js.gt0 (current v) then Some (current v) else None.
Proof. destruct v; reflexivity. Qed.

Lemma calculatedVoltage_eq (v : Values) :
  calculatedVoltage (calculateAll v) =
    if Js.gt0 (power v) && Js.gt0 (current v)
    then Some (power v / current v)
    else if Js.gt0 (voltage v) then Some (voltage v) else None.
Proof. destruct v; reflexivity. Qed.

Lemma energy_eq (v : Values) :
  energy (calculateAll v) =
    if Js.gt0 (effectivePower v) && Js.gt0 (time v)
    then Some ((effectivePower v * time v) / 1000)
    else None.
Proof. destruct v; reflexivity. Qed.

Lemma cost_eq (v : Values) :
  cost (calculateAll v) =
    if Js.truthy (energy (calculateAll v)) && Js.gt0 (tariff v)
    then Some (Js.toNumber (energy (calculateAll v)) * tariff v)
    else None.
Proof. destruct v; reflexivity. Qed.

(** In the exact model a determined power is strictly positive: a product
    of two positive readings or a positive reading. *)
Lemma calculatedPower_pos (v : Values) (x : Q) :
  calculatedPower (calculateAll v) = Some x -> Js.gt0 x = true.
Proof.
  rewrite calculatedPower_eq.
  destruct (Js.gt0 (voltage v)) eqn:Hu, (Js.gt0 (current v)) eqn:Hi;
    cbn [andb]; try destruct (Js.gt0 (power v)) eqn:Hp;
    intros [= <-]; auto using JsFacts.gt0_mult.
Qed.

Lemma calculatedCurrent_pos (v : Values) (x : Q) :
  calculatedCurrent (calculateAll v) = Some x -> Js.gt0 x = true.
Proof.
  rewrite calculatedCurrent_eq.
  destruct (Js.gt0 (power v)) eqn:Hp, (Js.gt0 (voltage v)) eqn:Hu;
    cbn [andb]; try destruct (Js.gt0 (current v)) eqn:Hi;
    intros [= <-]; auto using JsFacts.gt0_div.
Qed.

Lemma calculatedVoltage_pos (v : Values) (x : Q) :
  calculatedVoltage (calculateAll v) = Some x -> Js.gt0 x = true.
Proof.
  rewrite calculatedVoltage_eq.
  destruct (Js.gt0 (power v)) eqn:Hp, (Js.gt0 (current v)) eqn:Hi;
    cbn [andb]; try destruct (Js.gt0 (voltage v)) eqn:Hu;
    intros [= <-]; auto using JsFacts.gt0_div.
Qed.

Lemma energy_pos (v : Values) (x : Q) :
  energy (calculateAll v) = Some x -> Js.gt0 x = true.
Proof.
  rewrite energy_eq.
  destruct (Js.gt0 (effectivePower v)) eqn:Hp, (Js.gt0 (time v)) eqn:Ht;
    cbn [andb]; intros [= <-].
  apply JsFacts.gt0_div; [now apply JsFacts.gt0_mult | reflexivity].
Qed.

Lemma energy_truthy (v : Values) :
  Js.truthy (energy (calculateAll v)) = Js.notNull (energy (calculateAll v)).
Proof.
  destruct (energy (calculateAll v)) as [x|] eqn:E; [|reflexivity].
  cbn. now apply JsFacts.gt0_truthy, (energy_pos v).
Qed.

Lemma cost_pos (v : Values) (x : Q) :
  cost (calculateAll v) = Some x -> Js.gt0 x = true.
Proof.
  rewrite cost_eq, energy_truthy.
  destruct (energy (calculateAll v)) as [e|] eqn:E; cbn; [|discriminate].
  destruct (Js.gt0 (tariff v)) eqn:Hc; intros [= <-].
  apply JsFacts.gt0_mult; [now apply (energy_pos v) | assumption].
Qed.

Lemma precedence_intro (a b derived own : Q) :
  precedence a b derived own
    (if Js.gt0 a && Js.gt0 b then Some derived
     else if Js.gt0 own then Some own else None).
Proof.
  unfold precedence. guards; cbn [andb]; repeat split; intros;
    solve [reflexivity | tauto].
Qed.

(** C1.  For every usable Reading each of the three electrical
    quantities follows the precedence of the specification: power is
    [voltage * current] when voltage and current are both positive, else
    the power field when positive, else undetermined; current is
    [power / voltage] when raw power and voltage are both positive, else
    the current field when positive, else undetermined; voltage is
    [power / current] when raw power and current are both positive, else
    the voltage field when positive, else undetermined. *)
Theorem calculateAll_precedence (v : Values) :
  hasValidInputs v = true ->
  precedence (voltage v) (current v) (voltage v * current v) (power v)
    (calculatedPower (calculateAll v)) /\
  precedence (power v) (voltage v) (power v / voltage v) (current v)
    (calculatedCurrent (calculateAll v)) /\
  precedence (power v) (current v) (power v / current v) (voltage v)
    (calculatedVoltage (calculateAll v)).
Proof.
  intros _.
  rewrite calculatedPower_eq, calculatedCurrent_eq, calculatedVoltage_eq.
  auto using precedence_intro.
Qed.

Lemma calculateAll_precedence_witness :
  calculatedPower (calculateAll (reading 230 2 999 0 0)) = Some (230 * 2) /\
  calculatedCurrent (calculateAll (reading 230 0 460 0 0)) = Some (460 / 230) /\
  calculatedVoltage (calculateAll (reading 0 0 0 3 4)) = None.
Proof.
  split; [|split].
  - apply (calculateAll_precedence (reading 230 2 999 0 0) eq_refl).
    split; reflexivity.
  - apply (calculateAll_precedence (reading 230 0 460 0 0) eq_refl).
    split; reflexivity.
  - apply (calculateAll_precedence (reading 0 0 0 3 4) eq_refl);
      cbn; intros H; [destruct H as [H _]|]; discriminate H.
Defined.

(** *** Negative readings *)

Lemma gt0_of_negative (x : Q) : Js.ltb x 0 = true -> Js.gt0 x = false.
Proof.
  intros H%JsFacts.ltb_lt. apply JsFacts.gt0_nonpos. lra.
Qed.

(** When neither branch of the power rule fires with a nonzero value,
    the energy guard fails whatever non-positive number [||] falls back
    to. *)
Lemma energy_guard_fallback (a : option Q) (x y t : Q) :
  Js.gt0 x = false -> Js.gt0 y = false ->
  Js.gt0 (Js.or_else a x) && Js.gt0 t = Js.gt0 (Js.or_else a y) && Js.gt0 t.
Proof.
  intros Hx Hy. unfold Js.or_else.
  destruct a as [z|]; [destruct (Js.truthyNum z)|];
    rewrite ?Hx, ?Hy; reflexivity.
Qed.

Lemma or_else_fallback (a : option Q) (x y : Q) :
  Js.gt0 x = false -> Js.gt0 y = false ->
  Js.gt0 (Js.or_else a x) = true -> Js.or_else a x = Js.or_else a y.
Proof.
  intros Hx Hy. unfold Js.or_else.
  destruct a as [z|]; [destruct (Js.truthyNum z)|];
    rewrite ?Hx; solve [reflexivity | discriminate].
Qed.

Lemma calculateAll_zeroIfNegative (f : Field) (v : Values) :
  calculateAll (zeroIfNegative f v) = calculateAll v.
Proof.
  unfold zeroIfNegative.
  destruct (Js.ltb (get f v) 0) eqn:E; [|reflexivity].
  apply gt0_of_negative in E.
  destruct v as [u i p t c], f;
    cbn [get set voltage current power time tariff] in *;
    unfold calculateAll; change (Js.gt0 0) with false; rewrite ?E;
    cbn [andb]; rewrite ?andb_false_r; try reflexivity.
  (* the power field: [||] may fall back to it *)
  set (P := if Js.gt0 u && Js.gt0 i then Some (u * i) else None).
  assert (G : Js.gt0 (Js.or_else P 0) && Js.gt0 t
              = Js.gt0 (Js.or_else P p) && Js.gt0 t)
    by (apply energy_guard_fallback; [reflexivity | assumption]).
  rewrite G.
  destruct (Js.gt0 (Js.or_else P p) && Js.gt0 t) eqn:G'; [|reflexivity].
  apply andb_prop in G' as [G' _].
  rewrite (or_else_fallback P p 0 E eq_refl G'). reflexivity.
Qed.

Lemma hasValidInputs_zeroIfNegative (f : Field) (v : Values) :
  hasValidInputs (zeroIfNegative f v) = hasValidInputs v.
Proof.
  unfold zeroIfNegative.
  destruct (Js.ltb (get f v) 0) eqn:E; [|reflexivity].
  apply gt0_of_negative in E.
  destruct v as [u i p t c], f;
    cbn [get set voltage current power time tariff] in *;
    unfold hasValidInputs, Object_values;
    cbn [filter voltage current power time tariff];
    change (Js.gt0 0) with false; rewrite E; reflexivity.
Qed.

(** C10.  For every Reading and each of its five fields, replacing a
    negative value of that field by zero changes neither the usability
    verdict nor any field of the Derivation. *)
Theorem negative_reading_as_absent (f : Field) (v : Values) :
  hasValidInputs (zeroIfNegative f v) = hasValidInputs v /\
  calculateAll (zeroIfNegative f v) = calculateAll v.
Proof.
  split.
  - apply hasValidInputs_zeroIfNegative.
  - apply calculateAll_zeroIfNegative.
Qed.

(** *** Mutual consistency of power, current and voltage *)

(** C6, counterexample.  The Reading with voltage 10, current 2 and
    power 100 is usable and
    determines all three outputs, as power 20, current 10 and voltage 50;
    they do not satisfy [P = V * I].  (No operation rounds here: the same
    holds in binary64, see [consistency_lost_in_rounding].) *)
Lemma consistency_counterexample :
  let v := reading 10 2 100 0 0 in
  hasValidInputs v = true /\
  determined (calculatedPower (calculateAll v)) /\
  determined (calculatedCurrent (calculateAll v)) /\
  determined (calculatedVoltage (calculateAll v)) /\
  ~ consistent (calculateAll v).
Proof.
  cbn. repeat split; try discriminate.
  intros (p & i & u & [= <-] & [= <-] & [= <-] & H).
  discriminate H.
Qed.

(** ** The derivation engine in binary64 *)

(** *** Rounding keeps the sign

    The product and the quotient of two finite doubles are obtained by
    rounding an integer mantissa.  Shifting and rounding a mantissa that
    is not negative gives a zero, a finite number or an infinity of the
    sign asked for, never [NaN]. *)

Section BinaryRounding.

Variables prec emax : Z.

Lemma iter_pos_inv {A : Type} (P : A -> Prop) (f : A -> A) :
  (forall x, P x -> P (f x)) ->
  forall (n : positive) (x : A), P x -> P (SpecFloat.iter_pos f n x).
Proof.
  intros Hf. induction n as [n IH|n IH|]; intros x Hx; cbn; auto.
Qed.

Lemma shr_1_nonneg (mrs : shr_record) :
  (0 <= shr_m mrs)%Z -> (0 <= shr_m (shr_1 mrs))%Z.
Proof.
  destruct mrs as [m r s]. cbn.
  destruct m as [|[p|p|]|[p|p|]]; cbn; lia.
Qed.

Lemma shr_fexp_nonneg (m e : Z) (l : location) :
  (0 <= m)%Z -> (0 <= shr_m (fst (shr_fexp prec emax m e l)))%Z.
Proof.
  intros Hm. unfold shr_fexp, shr.
  assert (H0 : (0 <= shr_m (shr_record_of_loc m l))%Z)
    by (destruct l as [|[]]; exact Hm).
  destruct (fexp prec emax (Zdigits2 m + e) - e)%Z; cbn [fst]; auto.
  apply (iter_pos_inv (fun r => (0 <= shr_m r)%Z)); auto using shr_1_nonneg.
Qed.

Lemma round_nearest_even_nonneg (m : Z) (l : location) :
  (0 <= m)%Z -> (0 <= round_nearest_even m l)%Z.
Proof.
  intros Hm. destruct l as [|[]]; cbn; try destruct (Z.even m); lia.
Qed.

Lemma binary_round_aux_signed (s : bool) (m e : Z) (l : location) :
  (0 <= m)%Z -> signed s (binary_round_aux prec emax s m e l).
Proof.
  intros Hm. unfold binary_round_aux.
  pose proof (shr_fexp_nonneg m e l Hm) as H1.
  destruct (shr_fexp prec emax m e l) as [mrs' e']. cbn [fst] in H1.
  pose proof (shr_fexp_nonneg _ e' loc_Exact
                (round_nearest_even_nonneg _ (loc_of_shr_record mrs') H1))
    as H2.
  destruct (shr_fexp prec emax _ e' loc_Exact) as [mrs'' e''].
  cbn [fst] in H2.
  destruct (shr_m mrs'') as [|q|q].
  - constructor.
  - destruct (e'' <=? emax - prec)%Z; constructor.
  - lia.
Qed.

Lemma SFdiv_core_binary_nonneg (mx my : positive) (ex ey : Z) :
  (0 <= fst (fst (SFdiv_core_binary prec emax (Zpos mx) ex (Zpos my) ey)))%Z.
Proof.
  unfold SFdiv_core_binary.
  set (s := (ex - ey - _)%Z).
  set (m' := match s with
             | Zpos _ => Z.shiftl (Zpos mx) s
             | Z0 => Zpos mx
             | Zneg _ => Z0
             end).
  assert (Hm : (0 <= m')%Z).
  { subst m'. destruct s; try lia. apply Z.shiftl_nonneg. lia. }
  pose proof (Z.div_pos m' (Zpos my) Hm ltac:(lia)) as Hq.
  unfold Z.div in Hq.
  destruct (Z.div_eucl m' (Zpos my)) as [q r]. exact Hq.
Qed.

Lemma SFmul_signed (mx my : positive) (ex ey : Z) :
  signed false
    (SFmul prec emax (S754_finite false mx ex) (S754_finite false my ey)).
Proof. cbn. apply binary_round_aux_signed. lia. Qed.

Lemma SFdiv_signed (mx my : positive) (ex ey : Z) :
  signed false
    (SFdiv prec emax (S754_finite false mx ex) (S754_finite false my ey)).
Proof.
  cbn -[SFdiv_core_binary].
  pose proof (SFdiv_core_binary_nonneg mx my ex ey) as H.
  destruct (SFdiv_core_binary prec emax (Zpos mx) ex (Zpos my) ey)
    as [[mz ez] lz].
  apply binary_round_aux_signed. exact H.
Qed.

End BinaryRounding.

(** *** Signs of doubles *)

Section DoubleNumbers.

Local Open Scope float_scope.
Import Double.

Lemma Prim2SF_zero : Prim2SF 0 = S754_zero false.
Proof. reflexivity. Qed.

Lemma positive_SF (x : float) :
  positive x ->
  Prim2SF x = S754_infinity false \/
  exists m e, Prim2SF x = S754_finite false m e.
Proof.
  unfold positive, gt0. rewrite FloatAxioms.ltb_spec, Prim2SF_zero.
  destruct (Prim2SF x) as [s|[]| |[] m e]; cbn; try discriminate; eauto.
Qed.

Lemma zeroOrPositive_SF (x : float) :
  zeroOrPositive x <->
  (exists s, Prim2SF x = S754_zero s) \/ signed false (Prim2SF x).
Proof.
  unfold zeroOrPositive. rewrite FloatAxioms.leb_spec, Prim2SF_zero.
  destruct (Prim2SF x) as [s|[]| |[] m e]; cbn; split;
    try discriminate; try reflexivity; eauto using signed;
    intros [[s' H]|H]; try discriminate; inversion H.
Qed.

Lemma signed_zeroOrPositive (x : float) :
  signed false (Prim2SF x) -> zeroOrPositive x.
Proof. intros H. apply zeroOrPositive_SF. now right. Qed.

Lemma positive_zeroOrPositive (x : float) : positive x -> zeroOrPositive x.
Proof.
  intros H. apply signed_zeroOrPositive.
  destruct (positive_SF x H) as [E|(m & e & E)]; rewrite E; constructor.
Qed.

Lemma zeroOrPositive_notNegative (x : float) :
  zeroOrPositive x -> notNegative x.
Proof.
  unfold zeroOrPositive, notNegative.
  rewrite FloatAxioms.leb_spec, FloatAxioms.ltb_spec, Prim2SF_zero.
  destruct (Prim2SF x) as [s|[]| |[] m e]; cbn; congruence.
Qed.

Lemma positive_not_zero (x : float) : positive x -> is_zero x = false.
Proof.
  intros H. unfold is_zero. rewrite FloatAxioms.eqb_spec.
  change (Prim2SF PrimFloat.zero) with (S754_zero false).
  destruct (positive_SF x H) as [E|(m & e & E)]; rewrite E; reflexivity.
Qed.

(** The product of two positive numbers is zero (underflow), positive or
    [Infinity] (overflow): never negative, never [NaN]. *)
Lemma mul_positive (a b : float) :
  positive a -> positive b -> zeroOrPositive (a * b).
Proof.
  intros Ha Hb. apply signed_zeroOrPositive. rewrite FloatAxioms.mul_spec.
  destruct (positive_SF a Ha) as [Ea|(ma & ea & Ea)],
           (positive_SF b Hb) as [Eb|(mb & eb & Eb)]; rewrite Ea, Eb.
  1-3: cbn; constructor.
  apply SFmul_signed.
Qed.

(** The quotient of two positive numbers is not below zero; it is [NaN]
    when both are [Infinity]. *)
Lemma div_positive (a b : float) :
  positive a -> positive b -> notNegative (a / b).
Proof.
  intros Ha Hb. unfold notNegative.
  rewrite FloatAxioms.ltb_spec, FloatAxioms.div_spec, Prim2SF_zero.
  destruct (positive_SF a Ha) as [Ea|(ma & ea & Ea)],
           (positive_SF b Hb) as [Eb|(mb & eb & Eb)]; rewrite Ea, Eb.
  1-3: reflexivity.
  unfold SF64div.
  destruct (SFdiv_signed prec emax ma mb ea eb); reflexivity.
Qed.

(** The quotient of a finite positive number and a positive number is
    zero (underflow, or an infinite divisor), positive or [Infinity]. *)
Lemma div_finite_positive (a b : float) :
  positive a -> positive b -> belowInfinity a -> zeroOrPositive (a / b).
Proof.
  intros Ha Hb Hfin. apply signed_zeroOrPositive.
  rewrite FloatAxioms.div_spec. unfold belowInfinity in Hfin.
  rewrite FloatAxioms.ltb_spec in Hfin.
  change (Prim2SF infinity) with (S754_infinity false) in Hfin.
  destruct (positive_SF a Ha) as [Ea|(ma & ea & Ea)];
    rewrite Ea in *; [discriminate Hfin|].
  destruct (positive_SF b Hb) as [Eb|(mb & eb & Eb)]; rewrite Eb.
  - constructor.
  - apply SFdiv_signed.
Qed.

Lemma Prim2SF_thousand : exists m e, Prim2SF 1000 = S754_finite false m e.
Proof. do 2 eexists. vm_compute. reflexivity. Qed.

Lemma div_thousand (x : float) :
  zeroOrPositive x -> zeroOrPositive (x / 1000).
Proof.
  intros H. apply zeroOrPositive_SF in H. apply zeroOrPositive_SF.
  rewrite FloatAxioms.div_spec. destruct Prim2SF_thousand as (m & e & ->).
  destruct H as [[s ->]|H].
  - left. cbn. eauto.
  - right. destruct H.
    + constructor.
    + constructor.
    + apply SFdiv_signed.
Qed.

Lemma zeroOrPositive_not_nan (x : float) :
  zeroOrPositive x -> is_nan x = false.
Proof.
  intros H. apply zeroOrPositive_SF in H. unfold is_nan.
  rewrite FloatAxioms.eqb_spec.
  destruct H as [[s ->]|H]; [reflexivity|].
  destruct H; try reflexivity.
  unfold SFeqb, SFcompare.
  rewrite Z.compare_refl, Pos.compare_cont_refl. reflexivity.
Qed.

(** On a number that is zero or positive, truthiness is [x > 0]. *)
Lemma truthyNum_gt0 (x : float) : zeroOrPositive x -> truthyNum x = gt0 x.
Proof.
  intros H. apply zeroOrPositive_SF in H.
  unfold truthyNum, gt0, is_zero, is_nan.
  rewrite !FloatAxioms.eqb_spec, FloatAxioms.ltb_spec.
  change (Prim2SF PrimFloat.zero) with (S754_zero false).
  rewrite Prim2SF_zero.
  destruct H as [[s ->]|H]; [reflexivity|].
  destruct H; try reflexivity.
  unfold SFeqb, SFltb, SFcompare.
  rewrite Z.compare_refl, Pos.compare_cont_refl. reflexivity.
Qed.

Lemma truthyNum_not_zero (x : float) :
  zeroOrPositive x -> truthyNum x = negb (is_zero x).
Proof.
  intros H. unfold truthyNum. rewrite (zeroOrPositive_not_nan x H).
  now rewrite orb_false_r.
Qed.

End DoubleNumbers.

(** *** The engine *)

Section DoubleEngine.

Local Open Scope float_scope.
Import Double.

Lemma binary64_calculatedPower_eq (v : Values) :
  calculatedPower (calculateAll v) =
    if gt0 (voltage v) && gt0 (current v)
    then Some (voltage v * current v)
    else if gt0 (power v) then Some (power v) else None.
Proof. destruct v; reflexivity. Qed.

Lemma binary64_calculatedCurrent_eq (v : Values) :
  calculatedCurrent (calculateAll v) =
    if gt0 (power v) && gt0 (voltage v)
    then Some (power v / voltage v)
    else if gt0 (current v) then Some (current v) else None.
Proof. destruct v; reflexivity. Qed.

Lemma binary64_calculatedVoltage_eq (v : Values) :
  calculatedVoltage (calculateAll v) =
    if gt0 (power v) && gt0 (current v)
    then Some (power v / current v)
    else if gt0 (voltage v) then Some (voltage v) else None.
Proof. destruct v; reflexivity. Qed.

Lemma binary64_energy_eq (v : Values) :
  energy (calculateAll v) =
    if gt0 (effectivePower v) && gt0 (time v)
    then Some ((effectivePower v * time v) / 1000)
    else None.
Proof. destruct v; reflexivity. Qed.

Lemma binary64_cost_eq (v : Values) :
  cost (calculateAll v) =
    if truthy (energy (calculateAll v)) && gt0 (tariff v)
    then Some (toNumber (energy (calculateAll v)) * tariff v)
    else None.
Proof. destruct v; reflexivity. Qed.

(** A determined power is zero or positive: the rounded product of two
    positive readings, or a positive reading. *)
Lemma binary64_calculatedPower_sign (v : Values) (x : float) :
  calculatedPower (calculateAll v) = Some x -> zeroOrPositive x.
Proof.
  rewrite binary64_calculatedPower_eq.
  destruct (gt0 (voltage v)) eqn:Hu, (gt0 (current v)) eqn:Hi;
    cbn [andb]; try destruct (gt0 (power v)) eqn:Hp;
    intros [= <-]; auto using mul_positive, positive_zeroOrPositive.
Qed.

(** A determined current is not below zero, and is zero or positive
    when the raw power is finite: the rounded quotient of two positive
    readings, or a positive reading. *)
Lemma binary64_calculatedCurrent_sign (v : Values) (x : float) :
  calculatedCurrent (calculateAll v) = Some x ->
  notNegative x /\ (belowInfinity (power v) -> zeroOrPositive x).
Proof.
  rewrite binary64_calculatedCurrent_eq.
  destruct (gt0 (power v)) eqn:Hp, (gt0 (voltage v)) eqn:Hu;
    cbn [andb]; try destruct (gt0 (current v)) eqn:Hi;
    intros [= <-]; split;
    auto using div_positive, div_finite_positive,
      zeroOrPositive_notNegative, positive_zeroOrPositive.
Qed.

Lemma binary64_calculatedVoltage_sign (v : Values) (x : float) :
  calculatedVoltage (calculateAll v) = Some x ->
  notNegative x /\ (belowInfinity (power v) -> zeroOrPositive x).
Proof.
  rewrite binary64_calculatedVoltage_eq.
  destruct (gt0 (power v)) eqn:Hp, (gt0 (current v)) eqn:Hi;
    cbn [andb]; try destruct (gt0 (voltage v)) eqn:Hu;
    intros [= <-]; split;
    auto using div_positive, div_finite_positive,
      zeroOrPositive_notNegative, positive_zeroOrPositive.
Qed.

(** The [||] of the script picks the derived power when it is determined
    and not zero. *)
Lemma binary64_effectivePower (v : Values) :
  effectivePower v = specEffectivePower v.
Proof.
  unfold effectivePower, specEffectivePower, or_else.
  destruct (calculatedPower (calculateAll v)) as [p|] eqn:E; [|reflexivity].
  rewrite (truthyNum_not_zero p (binary64_calculatedPower_sign v p E)).
  destruct (is_zero p); reflexivity.
Qed.

Lemma binary64_energy_sign (v : Values) (x : float) :
  energy (calculateAll v) = Some x -> zeroOrPositive x.
Proof.
  rewrite binary64_energy_eq.
  destruct (gt0 (effectivePower v)) eqn:Hp, (gt0 (time v)) eqn:Ht;
    cbn [andb]; intros [= <-].
  apply div_thousand, mul_positive; assumption.
Qed.

(** The truthiness test on the energy is [energy > 0]. *)
Lemma binary64_cost_spec (v : Values) :
  cost (calculateAll v) =
    match energy (calculateAll v) with
    | Some e => if gt0 e && gt0 (tariff v) then Some (e * tariff v) else None
    | None => None
    end.
Proof.
  rewrite binary64_cost_eq.
  destruct (energy (calculateAll v)) as [e|] eqn:E; [|reflexivity].
  cbn [truthy toNumber].
  now rewrite (truthyNum_gt0 e (binary64_energy_sign v e E)).
Qed.

Lemma binary64_cost_sign (v : Values) (x : float) :
  cost (calculateAll v) = Some x -> zeroOrPositive x.
Proof.
  rewrite binary64_cost_spec.
  destruct (energy (calculateAll v)) as [e|]; [|discriminate].
  destruct (gt0 e) eqn:He, (gt0 (tariff v)) eqn:Hc; cbn [andb];
    intros [= <-].
  now apply mul_positive.
Qed.

(** *** Energy *)

(** C2, counterexample.  The Reading with voltage 1e-200, current 1e-200,
    power 100 and time 5 is usable.  The product of voltage and current
    underflows: the derived power is determined and is zero, so the
    effective power of the claim is zero, not positive.  The script's
    [calculatedPower || power] takes the raw power 100 instead, and the
    energy is determined, 0.5. *)
Lemma energy_counterexample :
  let v := underflowingProduct in
  hasValidInputs v = true /\
  calculatedPower (calculateAll v) = Some 0 /\
  claimedEffectivePower v = 0 /\
  energy (calculateAll v) = Some 0.5 /\
  ~ (determined (energy (calculateAll v)) <->
       positive (claimedEffectivePower v) /\ positive (time v)).
Proof.
  repeat split. intros [H _].
  assert (D : determined (energy (calculateAll underflowingProduct)))
    by discriminate.
  destruct (H D) as [H' _]. discriminate H'.
Qed.

(** C2, amended.  For every usable Reading, with effective power the
    derived power when it is determined and not zero and the raw power
    field otherwise, energy is determined exactly when effective power and
    time are both positive, and is then [effective power * time / 1000].
    The Reading with power 1000 and time 5 gives power 1000, energy 5, and
    current, voltage and cost undetermined. *)
Theorem energy_follows_nonzero_power :
  (forall v : Values,
      hasValidInputs v = true ->
      (determined (energy (calculateAll v)) <->
         positive (specEffectivePower v) /\ positive (time v)) /\
      (positive (specEffectivePower v) /\ positive (time v) ->
         energy (calculateAll v) =
           Some (specEffectivePower v * time v / 1000))) /\
  (let r := calculateAll (reading 0 0 1000 5 0) in
   calculatedPower r = Some 1000 /\
   energy r = Some 5 /\
   calculatedCurrent r = None /\
   calculatedVoltage r = None /\
   cost r = None).
Proof.
  split.
  - intros v _. rewrite binary64_energy_eq, binary64_effectivePower.
    unfold determined, positive.
    destruct (gt0 (specEffectivePower v)), (gt0 (time v)); cbn [andb];
      split; try split; intros;
      solve [reflexivity | tauto | congruence | intuition discriminate].
  - repeat split.
Qed.

Lemma energy_follows_nonzero_power_witness :
  energy (calculateAll (reading 230 2 0 10 0)) = Some (230 * 2 * 10 / 1000).
Proof.
  apply (proj1 energy_follows_nonzero_power (reading 230 2 0 10 0) eq_refl).
  split; reflexivity.
Defined.

(** *** Cost *)

(** C3, counterexample.  The Reading with power 5e-324, time 1 and
    tariff 1 is usable.  Its energy, 5e-324 / 1000, rounds to zero: it is
    determined, and the tariff is positive, but the script's truthiness
    test on the energy fails and the cost is undetermined. *)
Lemma cost_counterexample :
  let v := underflowingEnergy in
  hasValidInputs v = true /\
  energy (calculateAll v) = Some 0 /\
  positive (tariff v) /\
  cost (calculateAll v) = None /\
  ~ (determined (cost (calculateAll v)) <->
       determined (energy (calculateAll v)) /\ positive (tariff v)).
Proof.
  repeat split. intros [_ H].
  apply H; [|reflexivity]. split; [discriminate | reflexivity].
Qed.

(** C3, amended.  For every usable Reading, cost is determined exactly
    when energy is determined and not zero and the tariff is positive,
    and is then [energy * tariff].  The Reading with power 1000, time 5
    and tariff 8.5 gives energy 5 and cost 42.5. *)
Theorem cost_follows_nonzero_energy :
  (forall v : Values,
      hasValidInputs v = true ->
      (determined (cost (calculateAll v)) <->
         exists e, energy (calculateAll v) = Some e /\ is_zero e = false /\
                   positive (tariff v)) /\
      (forall e, energy (calculateAll v) = Some e -> is_zero e = false ->
         positive (tariff v) ->
         cost (calculateAll v) = Some (e * tariff v))) /\
  (let r := calculateAll (reading 0 0 1000 5 8.5) in
   energy r = Some 5 /\ cost r = Some 42.5).
Proof.
  split.
  - intros v _. rewrite binary64_cost_eq. unfold determined, positive.
    destruct (energy (calculateAll v)) as [e|] eqn:E; cbn [truthy toNumber].
    + rewrite (truthyNum_not_zero e (binary64_energy_sign v e E)).
      destruct (is_zero e) eqn:Hz, (gt0 (tariff v)) eqn:Hc; cbn [negb andb];
        (split; [split|]);
        solve [ congruence
              | intros (e' & [= <-] & ? & ?); congruence
              | intros _; eauto
              | intros e' [= <-]; congruence ].
    + cbn [andb]. split; [split|].
      * congruence.
      * intros (e & ? & _). congruence.
      * discriminate.
  - split; reflexivity.
Qed.

Lemma cost_follows_nonzero_energy_witness :
  cost (calculateAll (reading 230 2 0 10 3)) =
    Some (230 * 2 * 10 / 1000 * 3).
Proof.
  apply (proj2 (proj1 cost_follows_nonzero_energy (reading 230 2 0 10 3)
                  eq_refl) (230 * 2 * 10 / 1000)); reflexivity.
Defined.

(** *** Signs of the determined fields *)

(** C9, counterexample.  With voltage 1e-200, current 1e-200, power
    5e-324, time 1 and tariff 2 the derived power is determined and is
    zero, and so is the energy: neither is strictly positive.  The energy
    is determined while the truthiness test on it fails, and the cost is
    undetermined. *)
Lemma positivity_counterexample :
  let r := calculateAll underflowingBoth in
  calculatedPower r = Some 0 /\
  energy r = Some 0 /\
  ~ positive 0 /\
  determined (energy r) /\
  truthy (energy r) = false /\
  cost r = None.
Proof. repeat split; discriminate. Qed.

(** C9, amended.  For every Reading, whatever its five values, no
    determined field of the Derivation is negative.  A determined power,
    energy or cost is zero, positive or [Infinity]; so is a determined
    current or voltage when the raw power is finite, and for an infinite
    raw power it is at least not below zero.  A determined field can be
    zero, so the truthiness test of the cost branch holds exactly when
    energy is determined and strictly positive. *)
Theorem determined_fields_not_negative (v : Values) :
  (forall x, calculatedPower (calculateAll v) = Some x -> zeroOrPositive x) /\
  (forall x, calculatedCurrent (calculateAll v) = Some x ->
     notNegative x /\ (belowInfinity (power v) -> zeroOrPositive x)) /\
  (forall x, calculatedVoltage (calculateAll v) = Some x ->
     notNegative x /\ (belowInfinity (power v) -> zeroOrPositive x)) /\
  (forall x, energy (calculateAll v) = Some x -> zeroOrPositive x) /\
  (forall x, cost (calculateAll v) = Some x -> zeroOrPositive x) /\
  (truthy (energy (calculateAll v)) = true <->
     exists e, energy (calculateAll v) = Some e /\ positive e).
Proof.
  split; [|split; [|split; [|split; [|split; [|split]]]]].
  - apply binary64_calculatedPower_sign.
  - apply binary64_calculatedCurrent_sign.
  - apply binary64_calculatedVoltage_sign.
  - apply binary64_energy_sign.
  - apply binary64_cost_sign.
  - destruct (energy (calculateAll v)) as [e|] eqn:E; [|discriminate].
    cbn [truthy]. rewrite (truthyNum_gt0 e (binary64_energy_sign v e E)).
    eauto.
  - intros (e & E & He). rewrite E. cbn [truthy].
    rewrite (truthyNum_gt0 e (binary64_energy_sign v e E)). exact He.
Qed.

Lemma determined_fields_not_negative_witness :
  zeroOrPositive (230 * 2) /\ zeroOrPositive (9 / 4) /\
  zeroOrPositive (1000 * 5 / 1000).
Proof.
  split; [|split].
  - exact (proj1 (determined_fields_not_negative (reading 230 2 (-7) 0 0))
             _ eq_refl).
  - exact (proj2 (proj1 (proj2 (determined_fields_not_negative
                                  (reading 4 (-1) 9 0 0)))
                    _ eq_refl) eq_refl).
  - exact (proj1 (proj2 (proj2 (proj2
             (determined_fields_not_negative (reading 0 0 1000 5 0)))))
             _ eq_refl).
Defined.

(** *** Mutual consistency of power, current and voltage *)

(** Consistency is also lost by rounding when two of the three fields are
    supplied.  With voltage 220 and power 1000 the outputs are power 1000,
    current 1000 / 220 and voltage 220, and 220 * (1000 / 220) is the
    double next above 1000.  With all three supplied as 10, 2 and 100 the
    outputs are 20, 10 and 50, as in the exact model. *)
Lemma consistency_lost_in_rounding :
  (let v := reading 220 0 1000 0 0 in
   hasValidInputs v = true /\
   calculatedPower (calculateAll v) = Some 1000 /\
   calculatedCurrent (calculateAll v) = Some (1000 / 220) /\
   calculatedVoltage (calculateAll v) = Some 220 /\
   220 * (1000 / 220) = next_up 1000 /\
   ~ consistent (calculateAll v)) /\
  (let v := reading 10 2 100 0 0 in
   hasValidInputs v = true /\
   calculatedPower (calculateAll v) = Some 20 /\
   calculatedCurrent (calculateAll v) = Some 10 /\
   calculatedVoltage (calculateAll v) = Some 50 /\
   ~ consistent (calculateAll v)).
Proof.
  split; repeat split.
  - intros (p & i & u & [= <-] & [= <-] & [= <-] & H).
    apply (f_equal (fun z => z =? 1000)) in H. discriminate H.
  - intros (p & i & u & [= <-] & [= <-] & [= <-] & H).
    apply (f_equal (fun z => z =? 20)) in H. discriminate H.
Qed.

(** C6, amended.  For every usable Reading in which voltage and current
    are positive and the raw power is not, the Derivation determines
    power, current and voltage, the current and the voltage are the raw
    ones and the power is their product as the script computes it: the
    three outputs satisfy [P = V * I]. *)
Theorem consistency_without_raw_power (v : Values) :
  hasValidInputs v = true ->
  positive (voltage v) -> positive (current v) -> gt0 (power v) = false ->
  calculatedPower (calculateAll v) = Some (voltage v * current v) /\
  calculatedCurrent (calculateAll v) = Some (current v) /\
  calculatedVoltage (calculateAll v) = Some (voltage v) /\
  consistent (calculateAll v).
Proof.
  intros _ Hu Hi Hp. unfold consistent, positive in *.
  rewrite binary64_calculatedPower_eq, binary64_calculatedCurrent_eq,
    binary64_calculatedVoltage_eq, Hu, Hi, Hp.
  cbn [andb]. repeat split. do 3 eexists. repeat split.
Qed.

Lemma consistency_without_raw_power_witness :
  consistent (calculateAll (reading 230 2 0 0 0)).
Proof.
  apply (consistency_without_raw_power (reading 230 2 0 0 0));
    reflexivity.
Defined.

(** A determined current or voltage is [NaN] when the raw power and the
    divisor are both [Infinity], and zero when the quotient underflows. *)
Example quotient_of_extremes :
  calculatedCurrent (calculateAll (reading infinity 0 infinity 0 0))
    = Some nan /\
  calculatedCurrent (calculateAll underflowingQuotient) = Some 0.
Proof. split; reflexivity. Qed.

End DoubleEngine.

(** ** Usability *)

(** Offers [f] and [g] as the two positive fields. *)
Ltac two_fields f g :=
  exists f, g; cbn; repeat split; (discriminate || assumption).

Lemma hasValidInputs_usable (v : Values) :
  hasValidInputs v = true <-> usable v.
Proof.
  unfold usable. split.
  - destruct v as [u i p t c]. unfold hasValidInputs, Object_values.
    cbn [filter voltage current power time tariff].
    destruct (JsFacts.gt0_reflect u), (JsFacts.gt0_reflect i),
      (JsFacts.gt0_reflect p), (JsFacts.gt0_reflect t),
      (JsFacts.gt0_reflect c); cbn; try discriminate; intros _.
    all: first
      [ two_fields Voltage Current | two_fields Voltage Power
      | two_fields Voltage Time | two_fields Voltage Tariff
      | two_fields Current Power | two_fields Current Time
      | two_fields Current Tariff | two_fields Power Time
      | two_fields Power Tariff | two_fields Time Tariff ].
  - intros (f & g & Hfg & Hf%JsFacts.gt0_lt & Hg%JsFacts.gt0_lt).
    destruct v as [u i p t c]. unfold hasValidInputs, Object_values.
    cbn [filter voltage current power time tariff].
    destruct f, g; try congruence;
      cbn [get voltage current power time tariff] in *;
      rewrite Hf, Hg;
      repeat match goal with
             | |- context [Js.gt0 ?x] => destruct (Js.gt0 x)
             end; reflexivity.
Qed.

Lemma not_usable (v : Values) : hasValidInputs v = false <-> ~ usable v.
Proof.
  rewrite <- hasValidInputs_usable.
  destruct (hasValidInputs v); split; congruence.
Qed.

(** ** The pipeline *)

Section PipelineFacts.

Variable parseFloat : string -> Parsed.

(** The run on a Reading that is not usable. *)
Lemma performCalculations_not_usable (now : string) (s : App) :
  hasValidInputs (getInputValues parseFloat (fields s)) = false ->
  exec (performCalculations parseFloat now) s =
    mkApp (fields s) allDashes (energyChart s) (recentCalculations s)
          (storedCalculations s) (recentPanel s)
          (Call_clearResults :: Call_hasValidInputs :: Call_getInputValues
             :: calls s).
Proof.
  intros H. unfold exec, performCalculations, bind, enter, gets, modify.
  cbn -[hasValidInputs getInputValues]. rewrite H. reflexivity.
Qed.

(** The run on a usable Reading. *)
Lemma performCalculations_usable (now : string) (s : App) :
  let values := getInputValues parseFloat (fields s) in
  let results := calculateAll values in
  let log := unshiftAndTrim (mkCalculation now values results)
               (recentCalculations s) in
  hasValidInputs values = true ->
  exec (performCalculations parseFloat now) s =
    mkApp (fields s) (displayOf results)
          (chartAfter results (energyChart s))
          log (Some log) log
          (Call_displayRecentCalculations :: Call_saveCalculation
             :: Call_updateChart :: Call_displayResults :: Call_calculateAll
             :: Call_hasValidInputs :: Call_getInputValues :: calls s).
Proof.
  intros values results log H.
  subst log results values.
  destruct s as [fi d chart rc st rp cl].
  cbn [fields energyChart recentCalculations calls] in *.
  unfold exec, performCalculations, displayResults, updateChart,
    saveCalculation, displayRecentCalculations, bind, enter, gets, modify,
    ret.
  cbn -[hasValidInputs getInputValues calculateAll unshiftAndTrim].
  rewrite H. destruct chart; reflexivity.
Qed.

Lemma performCalculations_fields (now : string) (s : App) :
  fields (exec (performCalculations parseFloat now) s) = fields s.
Proof.
  destruct (hasValidInputs (getInputValues parseFloat (fields s))) eqn:H.
  - rewrite performCalculations_usable by assumption. reflexivity.
  - rewrite performCalculations_not_usable by assumption. reflexivity.
Qed.

Lemma performCalculations_display (now : string) (s : App) :
  display (exec (performCalculations parseFloat now) s) =
    let values := getInputValues parseFloat (fields s) in
    if hasValidInputs values then displayOf (calculateAll values)
    else allDashes.
Proof.
  cbv zeta.
  destruct (hasValidInputs (getInputValues parseFloat (fields s))) eqn:H.
  - rewrite performCalculations_usable by assumption. reflexivity.
  - rewrite performCalculations_not_usable by assumption. reflexivity.
Qed.

(** C4.  A Reading is usable exactly when two different fields among
    its five are strictly positive.  When the Reading collected from the
    page is not usable, a run of the pipeline invokes neither
    [calculateAll] nor [saveCalculation], shows the Derivation with all
    five fields undetermined (every result display is ['--']), and
    leaves the history log and its stored copy as they were. *)
Theorem not_usable_clears_results :
  (forall v : Values, hasValidInputs v = true <-> usable v) /\
  (forall (now : string) (s : App),
      let s' := exec (performCalculations parseFloat now) s in
      ~ usable (getInputValues parseFloat (fields s)) ->
      (exists l, invoked s s' l /\
                 ~ In Call_calculateAll l /\ ~ In Call_saveCalculation l) /\
      display s' = displayOf allUndetermined /\
      recentCalculations s' = recentCalculations s /\
      storedCalculations s' = storedCalculations s /\
      recentPanel s' = recentPanel s).
Proof.
  split; [apply hasValidInputs_usable|].
  intros now s s' H%not_usable. subst s'.
  rewrite performCalculations_not_usable by assumption.
  split; [|repeat split].
  exists [Call_getInputValues; Call_hasValidInputs; Call_clearResults].
  repeat split; cbn; intuition discriminate.
Qed.

Lemma hd_unshiftAndTrim (c : Calculation) (log : list Calculation) :
  hd_error (unshiftAndTrim c log) = Some c.
Proof.
  unfold unshiftAndTrim. destruct (10 <? length (c :: log))%nat; reflexivity.
Qed.

(** C7.  The Derivation a run of the pipeline shows and records is a
    function of the Reading alone: two runs on identical Readings, from
    any two states of the page (any earlier results, any history, any
    chart, any time), show identical displays, and when the Reading is
    usable both record the Derivation [calculateAll] gives for it; a
    second run on an unchanged page shows what the first showed.
    [calculateAll] itself maps identical Readings to identical
    Derivations. *)
Theorem derivation_is_stateless :
  (forall v1 v2 : Values, v1 = v2 -> calculateAll v1 = calculateAll v2) /\
  (forall (now1 now2 : string) (s1 s2 : App),
      let v := getInputValues parseFloat (fields s1) in
      let s1' := exec (performCalculations parseFloat now1) s1 in
      let s2' := exec (performCalculations parseFloat now2) s2 in
      getInputValues parseFloat (fields s2) = v ->
      display s1' = display s2' /\
      (hasValidInputs v = true ->
         display s1' = displayOf (calculateAll v) /\
         option_map results (hd_error (recentCalculations s1'))
           = Some (calculateAll v) /\
         option_map results (hd_error (recentCalculations s2'))
           = Some (calculateAll v))) /\
  (forall (now1 now2 : string) (s : App),
      let s' := exec (performCalculations parseFloat now1) s in
      display (exec (performCalculations parseFloat now2) s') = display s').
Proof.
  split; [intros v1 v2 ->; reflexivity|]. split.
  - intros now1 now2 s1 s2 v s1' s2' E. subst s1' s2'. split.
    + rewrite !performCalculations_display. cbv zeta. rewrite E. reflexivity.
    + intros H.
      rewrite !performCalculations_usable by (rewrite ?E; exact H).
      cbn [display recentCalculations]. rewrite !hd_unshiftAndTrim, E.
      repeat split.
  - intros now1 now2 s s'. subst s'.
    rewrite !performCalculations_display, performCalculations_fields.
    reflexivity.
Qed.

Lemma get_getInputValues (f : Field) (i : InputFields) :
  get f (getInputValues parseFloat i) = orZero (parseFloat (fieldValue f i)).
Proof. destruct f; reflexivity. Qed.

Lemma orZero_Num (x : Q) : orZero (Num x) == x.
Proof.
  unfold orZero, Js.truthyNum.
  destruct (Qeq_bool x 0) eqn:E; cbn; [|reflexivity].
  apply Qeq_bool_eq in E. symmetry. exact E.
Qed.

(** C8.  Each of the five raw strings is parsed to a number; a string
    that fails to parse gives zero (absent) in the Reading, and one that
    parses gives the number parsed.  [getInputValues] has no error
    result, and when all five strings fail to parse the pipeline shows
    cleared results: the failure surfaces as an unusable Reading, not
    as an error. *)
Theorem parse_failure_is_absent :
  (forall (i : InputFields) (f : Field),
      (parseFloat (fieldValue f i) = NaN ->
         get f (getInputValues parseFloat i) = 0) /\
      (forall x, parseFloat (fieldValue f i) = Num x ->
         get f (getInputValues parseFloat i) == x)) /\
  (forall (now : string) (s : App),
      (forall f, parseFloat (fieldValue f (fields s)) = NaN) ->
      getInputValues parseFloat (fields s) = mkValues 0 0 0 0 0 /\
      display (exec (performCalculations parseFloat now) s) = allDashes /\
      recentCalculations (exec (performCalculations parseFloat now) s)
        = recentCalculations s).
Proof.
  split.
  - intros i f. rewrite get_getInputValues. split.
    + intros ->. reflexivity.
    + intros x ->. apply orZero_Num.
  - intros now s H.
    assert (E : getInputValues parseFloat (fields s) = mkValues 0 0 0 0 0).
    { unfold getInputValues.
      generalize (H Voltage), (H Current), (H Power), (H Time), (H Tariff).
      cbn [fieldValue]. intros -> -> -> -> ->. reflexivity. }
    split; [exact E|].
    rewrite performCalculations_not_usable by (rewrite E; reflexivity).
    split; reflexivity.
Qed.

End PipelineFacts.

(** *** Runs on concrete pages *)

Lemma not_usable_clears_results_witness :
  let s := stalePage (mkInputFields "0" "0" empty empty "abc") in
  let s' := exec (performCalculations parseDecimal instant2) s in
  display s' = displayOf allUndetermined /\
  recentCalculations s' = recentCalculations s.
Proof.
  intros s s'.
  destruct (proj2 (not_usable_clears_results parseDecimal)
              instant2 s) as (_ & Hd & Hl & _).
  - apply not_usable. reflexivity.
  - split; assumption.
Defined.

Lemma derivation_is_stateless_witness :
  let i := mkInputFields "230" "2" empty empty empty in
  display (exec (performCalculations parseDecimal instant2)
             (stalePage i))
  = display (exec (performCalculations parseDecimal instant3)
               (barePage i)).
Proof.
  intros i.
  exact (proj1 (proj1 (proj2 (derivation_is_stateless parseDecimal))
                  instant2 instant3 (stalePage i) (barePage i) eq_refl)).
Defined.

Lemma parse_failure_is_absent_witness :
  let i := mkInputFields "abc" empty "12.5" "1e3" " 7" in
  get Voltage (getInputValues parseDecimal i) = 0 /\
  get Current (getInputValues parseDecimal i) = 0 /\
  get Power (getInputValues parseDecimal i) == 12.5.
Proof.
  intros i.
  pose proof (proj1 (parse_failure_is_absent parseDecimal) i) as H.
  split; [|split].
  - exact (proj1 (H Voltage) eq_refl).
  - exact (proj1 (H Current) eq_refl).
  - exact (proj2 (H Power) _ eq_refl).
Defined.

(** ** The history log *)

Section History.

Local Open Scope nat_scope.

(** [unshift] followed by the guarded [slice(0, 10)] keeps the first ten
    entries of the extended log. *)
Lemma unshiftAndTrim_firstn (c : Calculation) (log : list Calculation) :
  unshiftAndTrim c log = firstn 10 (c :: log).
Proof.
  unfold unshiftAndTrim.
  destruct (10 <? length (c :: log)) eqn:E; [reflexivity|].
  apply Nat.ltb_ge in E. symmetry. now apply firstn_all2.
Qed.

Lemma unshiftAndTrim_length (c : Calculation) (log : list Calculation) :
  length (unshiftAndTrim c log) <= 10.
Proof. rewrite unshiftAndTrim_firstn. apply firstn_le_length. Qed.

(** The state [saveCalculation] leaves. *)
Lemma saveCalculation_exec (now : string) (i : Values) (r : Results)
  (s : App) :
  let log := unshiftAndTrim (mkCalculation now i r) (recentCalculations s) in
  exec (saveCalculation now i r) s =
    mkApp (fields s) (display s) (energyChart s) log (Some log) log
          (Call_displayRecentCalculations :: Call_saveCalculation :: calls s).
Proof. reflexivity. Qed.

Lemma firstn_app_firstn {A : Type} (n : nat) (l1 l2 : list A) :
  firstn n (l1 ++ firstn n l2) = firstn n (l1 ++ l2).
Proof.
  rewrite !firstn_app, firstn_firstn.
  now rewrite (Nat.min_l (n - length l1) n) by lia.
Qed.

Lemma saveAll_log (l : list Calculation) (s : App) :
  recentCalculations (saveAll l s) =
    fold_left (fun log c => unshiftAndTrim c log) l (recentCalculations s).
Proof.
  revert s. induction l as [|c l IH]; intros s; [reflexivity|].
  cbn [saveAll fold_left]. rewrite IH, saveCalculation_exec.
  destruct c; reflexivity.
Qed.

(** From a log within the bound, a sequence of records leaves the ten
    most recent entries, newest first. *)
Lemma fold_unshiftAndTrim (l log : list Calculation) :
  length log <= 10 ->
  fold_left (fun log c => unshiftAndTrim c log) l log
    = firstn 10 (rev l ++ log).
Proof.
  revert log. induction l as [|c l IH]; intros log H; cbn [fold_left rev].
  - symmetry. now apply firstn_all2.
  - rewrite IH by apply unshiftAndTrim_length.
    rewrite unshiftAndTrim_firstn, firstn_app_firstn, <- app_assoc.
    reflexivity.
Qed.

Lemma fold_unshiftAndTrim_cons (c : Calculation) (l log : list Calculation) :
  fold_left (fun log c => unshiftAndTrim c log) (c :: l) log
    = firstn 10 (rev (c :: l) ++ log).
Proof.
  cbn [fold_left rev].
  rewrite fold_unshiftAndTrim by apply unshiftAndTrim_length.
  rewrite unshiftAndTrim_firstn, firstn_app_firstn, <- app_assoc.
  reflexivity.
Qed.

(** C5.  Each record puts the new entry, stamped with the current time,
    at the front of the log and keeps the first ten entries, and stores
    the log it leaves.  Hence the log has at most ten entries after any
    record; it stays within ten under any sequence of records; after a
    sequence of records it holds the ten most recent entries, newest
    first; and a record on a full log of ten drops exactly its last, oldest
    entry. *)
Theorem history_bounded_fifo :
  (forall (now : string) (i : Values) (r : Results) (s : App),
      let s' := exec (saveCalculation now i r) s in
      recentCalculations s'
        = firstn 10 (mkCalculation now i r :: recentCalculations s) /\
      hd_error (recentCalculations s') = Some (mkCalculation now i r) /\
      length (recentCalculations s') <= 10 /\
      storedCalculations s' = Some (recentCalculations s')) /\
  (forall (l : list Calculation) (s : App),
      length (recentCalculations s) <= 10 ->
      length (recentCalculations (saveAll l s)) <= 10) /\
  (forall (l : list Calculation) (s : App),
      l <> [] \/ length (recentCalculations s) <= 10 ->
      recentCalculations (saveAll l s)
        = firstn 10 (rev l ++ recentCalculations s)) /\
  (forall (now : string) (i : Values) (r : Results) (s : App)
          (front : list Calculation) (oldest : Calculation),
      recentCalculations s = front ++ [oldest] ->
      length front = 9 ->
      recentCalculations (exec (saveCalculation now i r) s)
        = mkCalculation now i r :: front).
Proof.
  split; [|split; [|split]].
  - intros now i r s s'. subst s'. rewrite saveCalculation_exec. cbv zeta.
    cbn [recentCalculations storedCalculations].
    rewrite unshiftAndTrim_firstn. repeat split.
    apply firstn_le_length.
  - intros l s H. rewrite saveAll_log, fold_unshiftAndTrim by assumption.
    apply firstn_le_length.
  - intros l s [H|H]; rewrite saveAll_log.
    + destruct l as [|c l]; [congruence|]. apply fold_unshiftAndTrim_cons.
    + now apply fold_unshiftAndTrim.
  - intros now i r s front oldest E Hlen.
    rewrite saveCalculation_exec. cbv zeta. cbn [recentCalculations].
    rewrite unshiftAndTrim_firstn, E, firstn_cons. f_equal.
    rewrite firstn_app, Hlen, Nat.sub_diag, app_nil_r.
    rewrite <- Hlen. apply firstn_all.
Qed.

End History.

Lemma history_bounded_fifo_witness :
  let s := saveAll elevenEntries initialApp in
  (length (recentCalculations s) <= 10)%nat /\
  recentCalculations s
    = map entryAt ["t11"; "t10"; "t09"; "t08"; "t07"; "t06"; "t05"; "t04";
                   "t03"; "t02"]%string /\
  recentCalculations (exec (saveCalculation "t12"%string (reading 1 1 0 0 0)
                              (calculateAll (reading 1 1 0 0 0))) s)
    = mkCalculation "t12"%string (reading 1 1 0 0 0)
                    (calculateAll (reading 1 1 0 0 0))
        :: map entryAt ["t11"; "t10"; "t09"; "t08"; "t07"; "t06"; "t05";
                        "t04"; "t03"]%string.
Proof.
  intros s.
  destruct history_bounded_fifo as (_ & Hbound & Hrecent & Hevict).
  split; [|split].
  - apply Hbound. cbn. lia.
  - unfold s. rewrite Hrecent by (left; discriminate). reflexivity.
  - apply (Hevict _ _ _ s _ (entryAt "t02")); reflexivity.
Defined.

(** ** Runs on the examples of the specification *)

(** Voltage 230 and current 2: power 460, current and voltage as
    supplied, no energy and no cost. *)
Example reading_voltage_current :
  calculateAll (reading 230 2 0 0 0)
  = mkResults (Some (230 * 2)) (Some 2) (Some 230) None None.
Proof. reflexivity. Qed.

(** Power 500 and voltage 250: current [500 / 250], which is 2. *)
Example reading_power_voltage :
  calculateAll (reading 250 0 500 0 0)
  = mkResults (Some 500) (Some (500 / 250)) (Some 250) None None
  /\ 500 / 250 == 2.
Proof. split; reflexivity. Qed.

(** Voltage 0 and current 0 is not usable. *)
Example reading_zeros_not_usable :
  hasValidInputs (reading 0 0 0 0 0) = false.
Proof. reflexivity. Qed.

(** A negative reading counts as absent. *)
Example reading_negative_voltage :
  calculateAll (reading (-230) 2 0 5 8.5) = calculateAll (reading 0 2 0 5 8.5)
  /\ hasValidInputs (reading (-230) 2 0 0 0) = false.
Proof. split; reflexivity. Qed.

(** What the decimal reader makes of some strings. *)
Example parseDecimal_samples :
  parseDecimal empty = NaN /\
  parseDecimal "abc" = NaN /\
  parseDecimal "." = NaN /\
  parseDecimal "-" = NaN /\
  (exists x, parseDecimal "8.5" = Num x /\ x == 8.5) /\
  (exists x, parseDecimal "  12abc" = Num x /\ x == 12) /\
  (exists x, parseDecimal "-1.25e2" = Num x /\ x == -125) /\
  (exists x, parseDecimal ".5" = Num x /\ x == 0.5) /\
  (exists x, parseDecimal "1e" = Num x /\ x == 1).
Proof.
  repeat split; try (eexists; split; reflexivity).
Qed.

(** The page with power 1000, time 5 and the default tariff 8.5 in its
    fields shows power 1000, energy 5 and cost 42.5 after a run, and has
    one entry in its history. *)
Example run_power_time_tariff :
  let s := exec (performCalculations parseDecimal instant1)
                (barePage (mkInputFields empty empty "1000" "5" "8.5")) in
  powerResult (display s) = Shown 1000 /\
  currentResult (display s) = Dash /\
  voltageResult (display s) = Dash /\
  (exists e, energyResult (display s) = Shown e /\ e == 5) /\
  (exists c, costResult (display s) = Shown c /\ c == 42.5) /\
  length (recentCalculations s) = 1%nat.
Proof.
  cbn. repeat split; eexists; split; reflexivity.
Qed.

(** * Further properties of the script *)

(** ** The derivation engine *)

Lemma calculateAll_without_electrical (v : Values) :
  ~ 0 < voltage v -> ~ 0 < current v -> ~ 0 < power v ->
  calculateAll v = allUndetermined.
Proof.
  intros Hu%JsFacts.gt0_nlt Hi%JsFacts.gt0_nlt Hp%JsFacts.gt0_nlt.
  destruct v as [u i p t c];
    cbn [voltage current power time tariff] in *.
  unfold calculateAll. rewrite Hu, Hi, Hp. cbn [andb Js.or_else].
  rewrite Hp. reflexivity.
Qed.

(** X1.  The Derivation has all five fields undetermined exactly when
    none of voltage, current and power is positive, whatever time and
    tariff are. *)
Theorem nothing_determined_iff (v : Values) :
  calculateAll v = allUndetermined <->
  ~ 0 < voltage v /\ ~ 0 < current v /\ ~ 0 < power v.
Proof.
  split.
  - intros E.
    assert (HP : calculatedPower (calculateAll v) = None) by now rewrite E.
    assert (HI : calculatedCurrent (calculateAll v) = None) by now rewrite E.
    assert (HV : calculatedVoltage (calculateAll v) = None) by now rewrite E.
    rewrite calculatedPower_eq in HP. rewrite calculatedCurrent_eq in HI.
    rewrite calculatedVoltage_eq in HV. revert HP HI HV.
    destruct (JsFacts.gt0_reflect (voltage v)),
             (JsFacts.gt0_reflect (current v)),
             (JsFacts.gt0_reflect (power v)); cbn [andb];
      try discriminate; tauto.
  - intros (Hu & Hi & Hp). now apply calculateAll_without_electrical.
Qed.

Lemma nothing_determined_iff_witness :
  calculateAll (reading (-3) 0 0 5 8.5) = allUndetermined.
Proof.
  apply (proj2 (nothing_determined_iff (reading (-3) 0 0 5 8.5))).
  repeat split; discriminate.
Defined.

Section DoubleDownstream.

Local Open Scope float_scope.
Import Double.

(** X2.  Energy and cost are downstream of the power, in binary64.  A
    determined cost comes with a determined, strictly positive energy and
    a positive tariff, and is [energy * tariff].  A determined energy comes
    with a positive time and a determined power [p]: when [p] is positive
    the energy is [p * time / 1000]; otherwise [p] is zero, the underflown
    product of a positive voltage and a positive current, and the energy
    is [power * time / 1000] for the raw power field, which is positive. *)
Theorem downstream_of_power_binary64 (v : Values) :
  (forall c, cost (calculateAll v) = Some c ->
     exists e, energy (calculateAll v) = Some e /\ positive e /\
               positive (tariff v) /\ c = e * tariff v) /\
  (forall e, energy (calculateAll v) = Some e ->
     positive (time v) /\
     exists p, calculatedPower (calculateAll v) = Some p /\
       ((positive p /\ e = p * time v / 1000) \/
        (is_zero p = true /\ positive (voltage v) /\ positive (current v) /\
         positive (power v) /\ e = power v * time v / 1000))).
Proof.
  split.
  - intros c. rewrite binary64_cost_spec.
    destruct (energy (calculateAll v)) as [e|]; [|discriminate].
    unfold positive.
    destruct (gt0 e) eqn:He, (gt0 (tariff v)) eqn:Hc; cbn [andb];
      intros [= <-].
    exists e. repeat split; assumption.
  - intros e. rewrite binary64_energy_eq, binary64_effectivePower.
    unfold specEffectivePower, positive.
    destruct (calculatedPower (calculateAll v)) as [p|] eqn:Ep.
    + destruct (is_zero p) eqn:Hz.
      * destruct (gt0 (power v)) eqn:Hp; [|discriminate].
        destruct (gt0 (time v)) eqn:Ht; [|discriminate].
        intros [= <-]. split; [reflexivity|].
        exists p. split; [reflexivity|]. right.
        rewrite binary64_calculatedPower_eq, Hp in Ep.
        destruct (gt0 (voltage v)), (gt0 (current v)); cbn [andb] in Ep;
          try (injection Ep as <-;
               rewrite (positive_not_zero _ Hp) in Hz; discriminate Hz).
        repeat split. exact Hz.
      * destruct (gt0 p) eqn:Hp; [|discriminate].
        destruct (gt0 (time v)) eqn:Ht; [|discriminate].
        intros [= <-]. split; [reflexivity|].
        exists p. split; [reflexivity|]. left. split; [exact Hp | reflexivity].
    + destruct (gt0 (power v)) eqn:Hp; [|discriminate].
      rewrite binary64_calculatedPower_eq, Hp in Ep.
      destruct (gt0 (voltage v) && gt0 (current v)); discriminate Ep.
Qed.

Lemma downstream_of_power_binary64_witness :
  (exists e, energy (calculateAll (reading 0 0 1000 5 8.5)) = Some e /\
             positive e /\ positive 8.5 /\ 42.5 = e * 8.5) /\
  (exists p, calculatedPower (calculateAll underflowingProduct) = Some p /\
       ((positive p /\ 0.5 = p * 5 / 1000) \/
        (is_zero p = true /\ positive (voltage underflowingProduct) /\
         positive (current underflowingProduct) /\
         positive 100 /\ 0.5 = 100 * 5 / 1000))).
Proof.
  split.
  - exact (proj1 (downstream_of_power_binary64 (reading 0 0 1000 5 8.5))
             42.5 eq_refl).
  - exact (proj2 (proj2 (downstream_of_power_binary64 underflowingProduct)
                    0.5 eq_refl)).
Defined.

End DoubleDownstream.

(** X3.  Power, current and voltage are all three determined exactly
    when at least two of the three raw fields are positive. *)
Theorem all_three_determined_iff (v : Values) :
  determined (calculatedPower (calculateAll v)) /\
  determined (calculatedCurrent (calculateAll v)) /\
  determined (calculatedVoltage (calculateAll v))
  <-> twoOfThree v.
Proof.
  unfold determined, twoOfThree.
  rewrite calculatedPower_eq, calculatedCurrent_eq, calculatedVoltage_eq.
  destruct (JsFacts.gt0_reflect (voltage v)),
           (JsFacts.gt0_reflect (current v)),
           (JsFacts.gt0_reflect (power v)); cbn [andb];
    split; intros H; try tauto;
    repeat split; try discriminate;
    destruct H as (H1 & H2 & H3); congruence.
Qed.

Lemma all_three_determined_iff_witness :
  determined (calculatedVoltage (calculateAll (reading 0 2 460 0 0))).
Proof.
  apply (proj2 (all_three_determined_iff (reading 0 2 460 0 0))).
  right. right. split; reflexivity.
Defined.

(** ** The pipeline over a session *)

Section SessionFacts.

Variable parseFloat : string -> Parsed.

Lemma performCalculations_log (now : string) (s : App) :
  let values := getInputValues parseFloat (fields s) in
  recentCalculations (exec (performCalculations parseFloat now) s) =
    if hasValidInputs values
    then firstn 10 (mkCalculation now values (calculateAll values)
                      :: recentCalculations s)
    else recentCalculations s.
Proof.
  cbv zeta.
  destruct (hasValidInputs (getInputValues parseFloat (fields s))) eqn:H.
  - rewrite performCalculations_usable by assumption.
    cbn [recentCalculations]. apply unshiftAndTrim_firstn.
  - rewrite performCalculations_not_usable by assumption. reflexivity.
Qed.

Lemma performCalculations_inSync (bound : nat) (now : string) (s : App) :
  (10 <= bound)%nat ->
  historyInSync bound s ->
  historyInSync bound (exec (performCalculations parseFloat now) s).
Proof.
  intros Hb (Hlen & Hpanel & Hstored). unfold historyInSync.
  destruct (hasValidInputs (getInputValues parseFloat (fields s))) eqn:H.
  - rewrite performCalculations_usable by assumption.
    cbn [recentCalculations recentPanel storedCalculations].
    split; [|split; [reflexivity|left; reflexivity]].
    pose proof (unshiftAndTrim_length
                  (mkCalculation now (getInputValues parseFloat (fields s))
                     (calculateAll (getInputValues parseFloat (fields s))))
                  (recentCalculations s)).
    lia.
  - rewrite performCalculations_not_usable by assumption.
    cbn [recentCalculations recentPanel storedCalculations]. auto.
Qed.

Lemma recalculate_fields (nows : list string) (s : App) :
  fields (runEvents parseFloat (map Recalculate nows) s) = fields s.
Proof.
  revert s. induction nows as [|now nows IH]; intros s; [reflexivity|].
  cbn [map runEvents fold_left step]. unfold runEvents in IH.
  rewrite IH. apply performCalculations_fields.
Qed.

(** X6.  The history is not deduplicated.  Running the pipeline again
    and again on an unchanged page with a usable Reading records one
    more entry per run, each with the same inputs and results and its own
    timestamp; the log is the ten most recent of these and the earlier
    entries, newest first. *)
Theorem repeated_runs_record_duplicates (nows : list string) (s : App) :
  let values := getInputValues parseFloat (fields s) in
  hasValidInputs values = true ->
  (length (recentCalculations s) <= 10)%nat ->
  recentCalculations (runEvents parseFloat (map Recalculate nows) s) =
    firstn 10
      (rev (map (fun now => mkCalculation now values (calculateAll values))
                nows)
       ++ recentCalculations s).
Proof.
  cbv zeta. revert s.
  induction nows as [|now nows IH]; intros s H Hlen.
  - cbn [map rev runEvents fold_left app]. symmetry. now apply firstn_all2.
  - cbn [map runEvents fold_left step rev]. unfold runEvents in IH.
    rewrite IH.
    + rewrite performCalculations_fields, performCalculations_log, H.
      cbv zeta. rewrite firstn_app_firstn, <- app_assoc. reflexivity.
    + rewrite performCalculations_fields. exact H.
    + rewrite performCalculations_log, H. apply firstn_le_length.
Qed.

Lemma or_else_zero (v : Values) (o : option Q) :
  In o (resultFields (calculateAll v)) -> Js.or_else o 0 = Js.toNumber o.
Proof.
  intros H. destruct o as [x|]; [|reflexivity].
  unfold Js.or_else, Js.toNumber.
  assert (G : Js.gt0 x = true).
  { cbn in H. destruct H as [H|[H|[H|[H|[H|[]]]]]].
    - now apply (calculatedPower_pos v).
    - now apply (calculatedCurrent_pos v).
    - now apply (calculatedVoltage_pos v).
    - now apply (energy_pos v).
    - now apply (cost_pos v). }
  now rewrite (JsFacts.gt0_truthy x G).
Qed.

(** X7.  After a run on a usable Reading a chart that exists holds the
    five results in label order, with zero standing for each undetermined
    one; a run on a Reading that is not usable leaves the chart as it
    was, although it clears the result displays; without a chart nothing
    is created. *)
Theorem chart_follows_results (now : string) (s : App) :
  let values := getInputValues parseFloat (fields s) in
  let s' := exec (performCalculations parseFloat now) s in
  (hasValidInputs values = true ->
   forall old, energyChart s = Some old ->
     energyChart s' = Some (map Js.toNumber (resultFields (calculateAll values)))) /\
  (hasValidInputs values = false ->
     energyChart s' = energyChart s /\ display s' = allDashes) /\
  (energyChart s = None -> energyChart s' = None).
Proof.
  cbv zeta. split; [|split].
  - intros H old E. rewrite performCalculations_usable by assumption.
    cbn [energyChart]. rewrite E. unfold chartAfter.
    set (v := getInputValues parseFloat (fields s)).
    rewrite !(or_else_zero v) by (cbn; auto 10). reflexivity.
  - intros H. rewrite performCalculations_not_usable by assumption.
    split; reflexivity.
  - intros E.
    destruct (hasValidInputs (getInputValues parseFloat (fields s))) eqn:H.
    + rewrite performCalculations_usable by assumption.
      cbn [energyChart]. now rewrite E.
    + rewrite performCalculations_not_usable by assumption. exact E.
Qed.

(** X5.  A usable Reading need not determine anything.  When none of
    voltage, current and power is positive (the Reading is usable through
    time and tariff), a run still goes through: every display shows
    ['--'], a chart gets five zeros, and an entry whose results are all
    undetermined is put at the front of the history. *)
Theorem run_without_electrical_reading (now : string) (s : App) :
  let values := getInputValues parseFloat (fields s) in
  let s' := exec (performCalculations parseFloat now) s in
  hasValidInputs values = true ->
  ~ 0 < voltage values -> ~ 0 < current values -> ~ 0 < power values ->
  0 < time values /\ 0 < tariff values /\
  display s' = allDashes /\
  hd_error (recentCalculations s')
    = Some (mkCalculation now values allUndetermined) /\
  (forall old, energyChart s = Some old ->
     energyChart s' = Some [0; 0; 0; 0; 0]).
Proof.
  cbv zeta. intros H Hu Hi Hp.
  set (v := getInputValues parseFloat (fields s)) in *.
  assert (T : 0 < time v /\ 0 < tariff v).
  { apply hasValidInputs_usable in H. destruct H as (f & g & Hfg & Hf & Hg).
    destruct f, g; cbn [get] in *; try congruence; tauto. }
  destruct T as (Ht & Hc). split; [exact Ht|]. split; [exact Hc|].
  rewrite performCalculations_usable by exact H. fold v.
  rewrite (calculateAll_without_electrical v Hu Hi Hp).
  cbn [display recentCalculations energyChart].
  rewrite hd_unshiftAndTrim. repeat split.
  intros old E. rewrite E. reflexivity.
Qed.

End SessionFacts.

Lemma repeated_runs_record_duplicates_witness :
  let s := barePage (mkInputFields "230" "2" empty empty empty) in
  recentCalculations
    (runEvents parseDecimal (map Recalculate [instant1; instant2]) s)
  = [ mkCalculation instant2 (reading 230 2 0 0 0)
                    (calculateAll (reading 230 2 0 0 0));
      mkCalculation instant1 (reading 230 2 0 0 0)
                    (calculateAll (reading 230 2 0 0 0)) ].
Proof.
  intros s.
  rewrite (repeated_runs_record_duplicates parseDecimal [instant1; instant2] s
             eq_refl); [reflexivity | cbn; lia].
Defined.

Lemma run_without_electrical_reading_witness :
  display (exec (performCalculations parseDecimal instant2)
             (stalePage (mkInputFields empty empty empty "5" "8.5")))
  = allDashes.
Proof.
  refine (proj1 (proj2 (proj2
            (run_without_electrical_reading parseDecimal instant2
               (stalePage (mkInputFields empty empty empty "5" "8.5"))
               eq_refl _ _ _)))); discriminate.
Defined.

Lemma chart_follows_results_witness :
  energyChart (exec (performCalculations parseDecimal instant2)
                 (stalePage (mkInputFields empty empty "1000" "5" empty)))
  = Some (map Js.toNumber
            (resultFields (calculateAll (reading 0 0 1000 5 0)))).
Proof.
  exact (proj1 (chart_follows_results parseDecimal instant2
                  (stalePage (mkInputFields empty empty "1000" "5" empty)))
           eq_refl _ eq_refl).
Defined.

(** ** Export to CSV *)

Section ExportFacts.

Variable parseFloat : string -> Parsed.
Variable numberToString : Q -> string.

Lemma exportToCSV_run (localTime isoTime : string) (s : App) :
  let values := getInputValues parseFloat (fields s) in
  exportToCSV parseFloat numberToString localTime isoTime s =
    ( if hasValidInputs values
      then Downloaded
             ("electrical-calculations-" ++ beforeT isoTime ++ ".csv")%string
             (String.concat newline
                (csvLines numberToString localTime values
                          (calculateAll values)))
      else Alerted "Please enter valid values before exporting.",
      set_calls (Call_hasValidInputs :: Call_calculateAll
                   :: Call_getInputValues :: calls s) s ).
Proof.
  cbv zeta. unfold exportToCSV, bind, enter, gets, modify, ret.
  cbn -[hasValidInputs getInputValues calculateAll csvLines String.concat].
  destruct (hasValidInputs (getInputValues parseFloat (fields s)));
    destruct s; reflexivity.
Qed.

(** X8.  An export with a Reading that is not usable offers no file: it
    raises the alert and leaves fields, displays, chart and history as
    they were.  Unlike the calculation pipeline it has by then invoked
    [calculateAll] on that Reading. *)
Theorem export_refuses_unusable_reading (localTime isoTime : string)
  (s : App) :
  let run := exportToCSV parseFloat numberToString localTime isoTime s in
  hasValidInputs (getInputValues parseFloat (fields s)) = false ->
  fst run = Alerted "Please enter valid values before exporting." /\
  invoked s (snd run)
    [Call_getInputValues; Call_calculateAll; Call_hasValidInputs] /\
  sameApart s (snd run).
Proof.
  cbv zeta. intros H. rewrite exportToCSV_run. cbv zeta. rewrite H.
  cbn [fst snd]. repeat split.
Qed.



End ExportFacts.

Lemma export_refuses_unusable_reading_witness :
  fst (exportToCSV parseDecimal printFixed2 instant1 instant2
         (stalePage (mkInputFields "230" empty empty empty "abc")))
  = Alerted "Please enter valid values before exporting.".
Proof.
  exact (proj1 (export_refuses_unusable_reading parseDecimal printFixed2
                  instant1 instant2
                  (stalePage (mkInputFields "230" empty empty empty "abc"))
                  eq_refl)).
Defined.


(** ** Theme *)

Lemma setTheme_app (name : string) (p : Page) : app (setTheme name p) = app p.
Proof.
  unfold setTheme, updateChartTheme. cbn.
  destruct (energyChart (app p)); reflexivity.
Qed.

Lemma setTheme_theme (name : string) (p : Page) :
  theme (setTheme name p) =
    mkThemeState name (Some name) (Some name)
      (if String.eqb name "light" then Moon else Sun)
      (match energyChart (app p) with
       | Some _ => Some name
       | None => chartPalette (theme p)
       end).
Proof.
  unfold setTheme, updateChartTheme. cbn.
  destruct (energyChart (app p)); reflexivity.
Qed.

Lemma setTheme_rest (name : string) (p : Page) :
  setTheme name p = set_theme (theme (setTheme name p)) p.
Proof.
  unfold setTheme, updateChartTheme. cbn.
  destruct (energyChart (app p)); reflexivity.
Qed.

Lemma setTheme_coherent (name : string) (p : Page) :
  themeCoherent (setTheme name p).
Proof.
  unfold themeCoherent. cbv zeta.
  rewrite setTheme_theme, setTheme_app. cbn.
  repeat split. destruct (energyChart (app p)); [reflexivity | congruence].
Qed.

(** X10.  [toggleTheme] makes the theme [dark] when it is [light], and
    [light] when it is anything else, with the attribute, the stored
    item, the icon and the chart's colours in agreement with the new
    theme.  On a page whose theme is in agreement and is [light] or
    [dark], toggling twice gives the page back. *)
Theorem toggleTheme_alternates (p : Page) :
  (currentTheme (theme p) = "light"%string ->
   currentTheme (theme (toggleTheme p)) = "dark"%string) /\
  (currentTheme (theme p) <> "light"%string ->
   currentTheme (theme (toggleTheme p)) = "light"%string) /\
  themeCoherent (toggleTheme p) /\
  (themeCoherent p ->
   currentTheme (theme p) = "light"%string \/
   currentTheme (theme p) = "dark"%string ->
   toggleTheme (toggleTheme p) = p).
Proof.
  split; [|split; [|split]].
  - intros H. unfold toggleTheme. rewrite setTheme_theme, H. reflexivity.
  - intros H%String.eqb_neq. unfold toggleTheme.
    rewrite setTheme_theme, H. reflexivity.
  - apply setTheme_coherent.
  - intros (Hd & Hs & Hi & Hc) Hname.
    destruct p as [a t m mk ou bs fo]. destruct t as [cur dt st ic pal].
    cbn in Hd, Hs, Hi, Hc, Hname. subst dt st ic.
    unfold toggleTheme, setTheme, updateChartTheme.
    destruct Hname as [-> | ->]; cbn;
      destruct (energyChart a) eqn:E; cbn; rewrite ?E; cbn;
      try rewrite Hc by congruence; reflexivity.
Qed.

Lemma toggleTheme_alternates_witness :
  toggleTheme
    (toggleTheme (onDOMContentLoaded (loadedPage (Some "dark"%string) None [])))
  = onDOMContentLoaded (loadedPage (Some "dark"%string) None []).
Proof.
  apply (proj2 (proj2 (proj2 (toggleTheme_alternates _)))).
  - repeat split.
  - right. reflexivity.
Defined.

Lemma initializeApp_theme (q : Page) :
  theme (initializeApp q)
  = theme (setTheme (orLight (storedTheme (theme q))) q).
Proof.
  unfold initializeApp. cbv zeta.
  destruct (storedCalculations _); reflexivity.
Qed.

Lemma initializeApp_app (q : Page) :
  app (initializeApp q) =
    set_fields
      (setFieldValue Tariff "8.5"
         (fields (app q)))
      (match storedCalculations (app q) with
       | Some saved => set_recentCalculations saved (app q)
       | None => app q
       end).
Proof.
  unfold initializeApp. cbv zeta.
  destruct (storedCalculations (app (setTheme _ q))) eqn:E;
    rewrite setTheme_app in E; rewrite E; cbn [app set_app];
    rewrite ?setTheme_app; reflexivity.
Qed.

(** X11.  The theme survives a reload: [initializeApp] adopts the stored
    theme when the item is present and not empty, whatever its text, and
    [light] otherwise; in particular it restores what the last
    [toggleTheme] left. *)
Theorem theme_restored_on_start :
  (forall (q : Page) (name : string),
      storedTheme (theme q) = Some name -> name <> empty ->
      currentTheme (theme (initializeApp q)) = name /\
      themeCoherent (initializeApp q)) /\
  (forall q : Page,
      storedTheme (theme q) = None \/ storedTheme (theme q) = Some empty ->
      currentTheme (theme (initializeApp q)) = "light"%string) /\
  (forall p q : Page,
      storedTheme (theme q) = storedTheme (theme (toggleTheme p)) ->
      currentTheme (theme (initializeApp q))
        = currentTheme (theme (toggleTheme p))).
Proof.
  pose proof initializeApp_theme as T.
  assert (A : forall q, energyChart (app (initializeApp q))
                        = energyChart (app q)).
  { intros q. rewrite initializeApp_app.
    destruct (storedCalculations (app q)); reflexivity. }
  split; [|split].
  - intros q name E Hne.
    assert (O : orLight (storedTheme (theme q)) = name).
    { rewrite E. destruct name; [now elim Hne | reflexivity]. }
    split.
    + rewrite T, setTheme_theme, O. reflexivity.
    + pose proof (setTheme_coherent name q) as (H1 & H2 & H3 & H4).
      unfold themeCoherent. cbv zeta. rewrite T, O, A.
      rewrite setTheme_app in H4. auto.
  - intros q [E|E]; rewrite T, setTheme_theme, E; reflexivity.
  - intros p q E. rewrite T, setTheme_theme, E.
    unfold toggleTheme. rewrite setTheme_theme. cbn.
    destruct (String.eqb (currentTheme (theme p)) "light"); reflexivity.
Qed.

Lemma theme_restored_on_start_witness :
  currentTheme (theme (initializeApp (loadedPage (Some "dark"%string) None [])))
  = "dark"%string.
Proof.
  apply (proj1 theme_restored_on_start
           (loadedPage (Some "dark"%string) None []) "dark"%string eq_refl).
  discriminate.
Defined.

(** ** Start of the page *)

Lemma onDOMContentLoaded_app (q : Page) :
  app (onDOMContentLoaded q) =
    let log := match storedCalculations (app q) with
               | Some saved => saved
               | None => recentCalculations (app q)
               end in
    mkApp (setFieldValue Tariff "8.5" (fields (app q))) (display (app q))
          (Some [0; 0; 0; 0; 0]) log (storedCalculations (app q)) log
          (Call_displayRecentCalculations :: calls (app q)).
Proof.
  unfold onDOMContentLoaded, initializeChart, loadRecentCalculations, onApp.
  cbn [app set_app set_theme]. rewrite initializeApp_app.
  destruct (app q) as [fi d ch rc st rp cl]. cbn.
  destruct st; reflexivity.
Qed.

Lemma onDOMContentLoaded_theme (q : Page) :
  theme (onDOMContentLoaded q) =
    let name := orLight (storedTheme (theme q)) in
    mkThemeState name (Some name) (Some name)
      (if String.eqb name "light" then Moon else Sun) (Some name).
Proof.
  unfold onDOMContentLoaded, initializeChart, loadRecentCalculations, onApp.
  cbn [theme set_app set_theme]. rewrite initializeApp_theme, setTheme_theme.
  reflexivity.
Qed.

(** X12.  The history survives a reload.  When the page starts, a stored
    history becomes the log and is what the panel shows; without one the
    log stays as it is.  So the log a run of the pipeline left in
    [localStorage] is the log the next start of the page shows. *)
Theorem history_restored_on_start :
  (forall (q : Page) (saved : list Calculation),
      storedCalculations (app q) = Some saved ->
      recentCalculations (app (onDOMContentLoaded q)) = saved /\
      recentPanel (app (onDOMContentLoaded q)) = saved /\
      storedCalculations (app (onDOMContentLoaded q)) = Some saved) /\
  (forall q : Page,
      storedCalculations (app q) = None ->
      recentCalculations (app (onDOMContentLoaded q))
        = recentCalculations (app q) /\
      storedCalculations (app (onDOMContentLoaded q)) = None) /\
  (forall (parseFloat : string -> Parsed) (now : string) (p q : Page),
      let p' := onApp (performCalculations parseFloat now) p in
      hasValidInputs (getInputValues parseFloat (fields (app p))) = true ->
      storedCalculations (app q) = storedCalculations (app p') ->
      recentCalculations (app (onDOMContentLoaded q))
        = recentCalculations (app p') /\
      recentPanel (app (onDOMContentLoaded q)) = recentPanel (app p')).
Proof.
  split; [|split].
  - intros q saved E. rewrite onDOMContentLoaded_app, E. repeat split.
  - intros q E. rewrite onDOMContentLoaded_app, E. repeat split.
  - intros parseFloat now p q p' H E. subst p'.
    unfold onApp in *. cbn [app set_app] in *.
    rewrite performCalculations_usable in * by assumption.
    cbn [storedCalculations recentCalculations recentPanel] in *.
    rewrite onDOMContentLoaded_app, E. repeat split.
Qed.

Lemma history_restored_on_start_witness :
  recentCalculations
    (app (onDOMContentLoaded (loadedPage None (Some elevenEntries) [])))
  = elevenEntries.
Proof.
  exact (proj1 (proj1 history_restored_on_start
                  (loadedPage None (Some elevenEntries) []) elevenEntries
                  eq_refl)).
Defined.

(** ** Unit toggles *)

Lemma matchesUnits_label (a b : string) (x y : UnitButton) :
  label x = label y -> matchesUnits a b x = matchesUnits a b y.
Proof.
  unfold label, matchesUnits. intros [= -> _ _]. reflexivity.
Qed.

Lemma firstUnitText_labels (a b : string) (bs bs' : list UnitButton) :
  map label bs = map label bs' ->
  firstUnitText a b bs = firstUnitText a b bs'.
Proof.
  unfold firstUnitText. revert bs'.
  induction bs as [|x bs IH]; intros [|y bs']; cbn [map find];
    try discriminate; [reflexivity|].
  intros H.
  pose proof (f_equal (hd (label x)) H) as Hxy.
  pose proof (f_equal (@tl _) H) as Hrest.
  cbn [hd tl] in Hxy, Hrest.
  rewrite (matchesUnits_label a b x y Hxy).
  destruct (matchesUnits a b y).
  - cbn. unfold label in Hxy. congruence.
  - now apply IH.
Qed.

Lemma deactivate_labels (g : UnitButton -> bool) (bs : list UnitButton) :
  map label (deactivate g bs) = map label bs.
Proof.
  unfold deactivate. rewrite map_map. apply map_ext.
  intros b. destruct (g b); reflexivity.
Qed.

Lemma activateAt_labels (k : nat) (bs : list UnitButton) :
  map label (activateAt k bs) = map label bs.
Proof.
  revert k. induction bs as [|b bs IH]; intros [|k]; cbn; try reflexivity.
  now rewrite IH.
Qed.

Lemma toggleUnitButtons_labels (g : UnitButton -> bool) (k : nat)
  (bs : list UnitButton) :
  map label (toggleUnitButtons g k bs) = map label bs.
Proof.
  unfold toggleUnitButtons. now rewrite activateAt_labels, deactivate_labels.
Qed.

Lemma resetButtons_labels (bs : list UnitButton) :
  map label (resetButtons bs) = map label bs.
Proof.
  unfold resetButtons. rewrite map_map. apply map_ext.
  intros b. destruct (unit_btn b); reflexivity.
Qed.

Lemma firstUnitText_of_member (a b : string) (bs : list UnitButton)
  (k : nat) (btn : UnitButton) :
  nth_error bs k = Some btn -> matchesUnits a b btn = true ->
  firstUnitText a b bs <> None.
Proof.
  unfold firstUnitText. revert k.
  induction bs as [|x bs IH]; intros [|k]; cbn; try discriminate.
  - intros [= ->] ->. discriminate.
  - intros H G. destruct (matchesUnits a b x); [discriminate|].
    now apply (IH k).
Qed.

Section UnitFacts.

Variable parseFloat : string -> Parsed.
Variable toFixed2 : Q -> string.

Lemma convertUnits_eq (f : Field) (base alt : string) (factor : Q)
  (now : string) (p : Page) :
  convertUnits parseFloat toFixed2 f base alt factor now p =
    match parseFloat (fieldValue f (fields (app p))) with
    | NaN => Some p
    | Num value =>
        match firstUnitText base alt (buttons p) with
        | None => None
        | Some activeUnit =>
            Some (onApp (performCalculations parseFloat now)
                    (rescaled toFixed2 f base alt factor activeUnit value p))
        end
    end.
Proof.
  unfold convertUnits, firstUnitText, rescaled.
  destruct (parseFloat _); [reflexivity|].
  destruct (find _ _); reflexivity.
Qed.

Lemma rescaled_set_buttons (f : Field) (base alt : string) (factor : Q)
  (u : string) (x : Q) (bs : list UnitButton) (p : Page) :
  rescaled toFixed2 f base alt factor u x (set_buttons bs p)
  = set_buttons bs (rescaled toFixed2 f base alt factor u x p).
Proof.
  unfold rescaled. cbn [originalUnit set_buttons app].
  destruct (_ && _)%bool; [reflexivity|].
  destruct (_ && _)%bool; reflexivity.
Qed.

Lemma onApp_set_buttons {A : Type} (m : M A) (bs : list UnitButton)
  (p : Page) :
  onApp m (set_buttons bs p) = set_buttons bs (onApp m p).
Proof. reflexivity. Qed.

(** A click on a button of the group of its field. *)
Lemma clickUnit_eq (f : Field) (base alt : string) (factor : Q) (k : nat)
  (btn : UnitButton) (now : string) (p : Page) :
  unitsOf f = Some (base, alt, factor) ->
  nth_error (buttons p) k = Some btn ->
  matchesUnits base alt btn = true ->
  exists activeUnit,
    firstUnitText base alt (buttons p) = Some activeUnit /\
    clickUnit parseFloat toFixed2 f k now p =
      set_buttons (toggleUnitButtons (matchesUnits base alt) k (buttons p))
        match parseFloat (fieldValue f (fields (app p))) with
        | NaN => p
        | Num value =>
            onApp (performCalculations parseFloat now)
              (rescaled toFixed2 f base alt factor activeUnit value p)
        end.
Proof.
  intros Hu Hk Hm.
  destruct (firstUnitText base alt (buttons p)) as [u|] eqn:E;
    [|now elim (firstUnitText_of_member base alt _ k btn Hk Hm)].
  exists u. split; [reflexivity|].
  unfold clickUnit. rewrite Hu, Hk, Hm, convertUnits_eq.
  cbn [buttons set_buttons app fields].
  rewrite (firstUnitText_labels base alt _ (buttons p))
    by apply toggleUnitButtons_labels.
  rewrite E.
  destruct (parseFloat _); [reflexivity|].
  rewrite rescaled_set_buttons, onApp_set_buttons. reflexivity.
Qed.

End UnitFacts.

Lemma at5_upd5_same {A : Type} (f : Field) (a : A) (x : Five A) :
  at5 f (upd5 f a x) = a.
Proof. destruct f; reflexivity. Qed.

Lemma at5_upd5_other {A : Type} (f g : Field) (a : A) (x : Five A) :
  f <> g -> at5 g (upd5 f a x) = at5 g x.
Proof. destruct f, g; congruence || reflexivity. Qed.

Lemma fieldValue_set_same (f : Field) (text : string) (i : InputFields) :
  fieldValue f (setFieldValue f text i) = text.
Proof. destruct f; reflexivity. Qed.

Lemma fieldValue_set_other (f g : Field) (text : string) (i : InputFields) :
  f <> g -> fieldValue g (setFieldValue f text i) = fieldValue g i.
Proof. destruct f, g; congruence || reflexivity. Qed.

Lemma unitsOf_distinct (f : Field) (base alt : string) (factor : Q) :
  unitsOf f = Some (base, alt, factor) ->
  String.eqb base alt = false /\ alt <> empty.
Proof.
  destruct f; intros [= <- <- <-]; split; reflexivity || discriminate.
Qed.

Section RescaleFacts.

Variable toFixed2 : Q -> string.

(** The three outcomes of the [if] of a conversion. *)
Lemma rescaled_cases (f : Field) (base alt : string) (factor : Q)
  (u : string) (x : Q) (p : Page) :
  (u = alt /\ at5 f (originalUnit p) <> Some alt /\
   elementState f (rescaled toFixed2 f base alt factor u x p)
     = (toFixed2 (x * factor), Some alt)) \/
  (u = base /\ at5 f (originalUnit p) = Some alt /\
   elementState f (rescaled toFixed2 f base alt factor u x p)
     = (toFixed2 (x / factor), Some base)) \/
  (rescaled toFixed2 f base alt factor u x p = p /\
   ~ (u = alt /\ at5 f (originalUnit p) <> Some alt) /\
   ~ (u = base /\ at5 f (originalUnit p) = Some alt)).
Proof.
  unfold rescaled, elementState.
  assert (HA : (match at5 f (originalUnit p) with
                | Some w => String.eqb w alt
                | None => false
                end) = true <-> at5 f (originalUnit p) = Some alt).
  { destruct (at5 f (originalUnit p)) as [w|]; [|split; discriminate].
    rewrite String.eqb_eq. split; congruence. }
  destruct (match at5 f (originalUnit p) with
            | Some w => String.eqb w alt
            | None => false
            end) eqn:EA.
  - assert (Halt : at5 f (originalUnit p) = Some alt) by now apply HA.
    rewrite andb_false_r, andb_true_r.
    destruct (String.eqb u base) eqn:EB.
    + apply String.eqb_eq in EB. right. left.
      cbn [app set_app set_originalUnit originalUnit fields set_fields].
      now rewrite at5_upd5_same, fieldValue_set_same.
    + apply String.eqb_neq in EB. right. right. repeat split; tauto.
  - assert (Halt : at5 f (originalUnit p) <> Some alt).
    { intros H. apply HA in H. discriminate. }
    rewrite andb_true_r, andb_false_r.
    destruct (String.eqb u alt) eqn:EB.
    + apply String.eqb_eq in EB. left.
      cbn [app set_app set_originalUnit originalUnit fields set_fields].
      now rewrite at5_upd5_same, fieldValue_set_same.
    + apply String.eqb_neq in EB. right. right. repeat split; tauto.
Qed.

(** The outcome depends on the page through the element's state only. *)
Lemma rescaled_elementState (f : Field) (base alt : string) (factor : Q)
  (u : string) (x : Q) (p q : Page) :
  elementState f p = elementState f q ->
  elementState f (rescaled toFixed2 f base alt factor u x p)
  = elementState f (rescaled toFixed2 f base alt factor u x q).
Proof.
  intros E. assert (E2 : at5 f (originalUnit p) = at5 f (originalUnit q))
    by (unfold elementState in E; congruence).
  unfold rescaled. rewrite E2.
  destruct (_ && _)%bool.
  - unfold elementState.
    cbn [app set_app set_originalUnit originalUnit fields set_fields].
    now rewrite !at5_upd5_same, !fieldValue_set_same.
  - destruct (_ && _)%bool; [|exact E].
    unfold elementState.
    cbn [app set_app set_originalUnit originalUnit fields set_fields].
    now rewrite !at5_upd5_same, !fieldValue_set_same.
Qed.

Lemma rescaled_twice (f : Field) (base alt : string) (factor : Q)
  (u : string) (x y : Q) (p : Page) :
  String.eqb base alt = false ->
  elementState f
    (rescaled toFixed2 f base alt factor u y
       (rescaled toFixed2 f base alt factor u x p))
  = elementState f (rescaled toFixed2 f base alt factor u x p).
Proof.
  intros Hne%String.eqb_neq.
  destruct (rescaled_cases f base alt factor u x p)
    as [(Hu & Ho & E) | [(Hu & Ho & E) | (E & N1 & N2)]].
  - destruct (rescaled_cases f base alt factor u y
                (rescaled toFixed2 f base alt factor u x p))
      as [(_ & Ho' & _) | [(Hu' & _ & _) | (E' & _ & _)]].
    + elim Ho'. unfold elementState in E. congruence.
    + congruence.
    + now rewrite E'.
  - destruct (rescaled_cases f base alt factor u y
                (rescaled toFixed2 f base alt factor u x p))
      as [(Hu' & _ & _) | [(_ & Ho' & _) | (E' & _ & _)]].
    + congruence.
    + unfold elementState in E. congruence.
    + now rewrite E'.
  - rewrite E.
    destruct (rescaled_cases f base alt factor u y p)
      as [(Hu' & Ho' & _) | [(Hu' & Ho' & _) | (E' & _ & _)]];
      [tauto | tauto | now rewrite E'].
Qed.

End RescaleFacts.

Section UnitToggleFacts.

Variable parseFloat : string -> Parsed.
Variable toFixed2 : Q -> string.

Lemma elementState_run (f : Field) (now : string) (p : Page) :
  elementState f (onApp (performCalculations parseFloat now) p)
  = elementState f p.
Proof.
  unfold elementState, onApp. cbn [app set_app originalUnit].
  now rewrite performCalculations_fields.
Qed.

(** X13.  A click on a unit button while the text of its field does not
    parse only moves the [active] mark within the group: the text is not
    converted and the pipeline does not run. *)
Theorem click_on_unparsed_field (f : Field) (base alt : string) (factor : Q)
  (k : nat) (btn : UnitButton) (now : string) (p : Page) :
  unitsOf f = Some (base, alt, factor) ->
  nth_error (buttons p) k = Some btn ->
  matchesUnits base alt btn = true ->
  parseFloat (fieldValue f (fields (app p))) = NaN ->
  clickUnit parseFloat toFixed2 f k now p
  = set_buttons (toggleUnitButtons (matchesUnits base alt) k (buttons p)) p.
Proof.
  intros Hu Hk Hm Hnan.
  destruct (clickUnit_eq parseFloat toFixed2 f base alt factor k btn now p
              Hu Hk Hm) as (u & _ & ->).
  now rewrite Hnan.
Qed.

(** X14.  Which button of a group is clicked makes no difference to the
    conversion: the unit is read from the first button of the group in
    the document, not from the button that is active.  Clicks on two
    buttons of the group leave pages that differ only in which buttons
    are marked [active]. *)
Theorem click_ignores_clicked_button (f : Field) (base alt : string)
  (factor : Q) (k k' : nat) (btn btn' : UnitButton) (now : string)
  (p : Page) :
  unitsOf f = Some (base, alt, factor) ->
  nth_error (buttons p) k = Some btn -> matchesUnits base alt btn = true ->
  nth_error (buttons p) k' = Some btn' -> matchesUnits base alt btn' = true ->
  apartFromActive (clickUnit parseFloat toFixed2 f k now p)
  = apartFromActive (clickUnit parseFloat toFixed2 f k' now p).
Proof.
  intros Hu Hk Hm Hk' Hm'.
  destruct (clickUnit_eq parseFloat toFixed2 f base alt factor k btn now p
              Hu Hk Hm) as (u & E & ->).
  destruct (clickUnit_eq parseFloat toFixed2 f base alt factor k' btn' now p
              Hu Hk' Hm') as (u' & E' & ->).
  assert (u' = u) by congruence. subst u'. reflexivity.
Qed.

Lemma nth_error_labels (bs bs' : list UnitButton) (k : nat)
  (btn : UnitButton) :
  map label bs = map label bs' -> nth_error bs k = Some btn ->
  exists btn', nth_error bs' k = Some btn' /\ label btn' = label btn.
Proof.
  intros H Hk.
  assert (E : nth_error (map label bs') k = Some (label btn))
    by (rewrite <- H; now apply map_nth_error).
  rewrite nth_error_map in E.
  destruct (nth_error bs' k) as [b'|]; [|discriminate].
  exists b'. split; [reflexivity|]. cbn in E. congruence.
Qed.

(** X15.  A second click never converts again.  After a click on a unit
    button of a field, a further click on a button of the same group
    leaves the text of the field and its [dataset.originalUnit] as the
    first click left them. *)
Theorem second_click_converts_nothing (f : Field) (base alt : string)
  (factor : Q) (k k' : nat) (btn btn' : UnitButton) (now now' : string)
  (p : Page) :
  unitsOf f = Some (base, alt, factor) ->
  nth_error (buttons p) k = Some btn -> matchesUnits base alt btn = true ->
  nth_error (buttons p) k' = Some btn' -> matchesUnits base alt btn' = true ->
  let p1 := clickUnit parseFloat toFixed2 f k now p in
  elementState f (clickUnit parseFloat toFixed2 f k' now' p1)
  = elementState f p1.
Proof.
  intros Hu Hk Hm Hk' Hm' p1.
  destruct (unitsOf_distinct f base alt factor Hu) as (Hne & _).
  destruct (clickUnit_eq parseFloat toFixed2 f base alt factor k btn now p
              Hu Hk Hm) as (u & E & E1).
  assert (L : map label (buttons p1) = map label (buttons p)).
  { subst p1. rewrite E1. cbn [buttons set_buttons].
    apply toggleUnitButtons_labels. }
  destruct (nth_error_labels (buttons p) (buttons p1) k' btn'
              (eq_sym L) Hk') as (b1 & Hk1 & Hl1).
  assert (Hm1 : matchesUnits base alt b1 = true)
    by (rewrite (matchesUnits_label base alt b1 btn' Hl1); exact Hm').
  destruct (clickUnit_eq parseFloat toFixed2 f base alt factor k' b1 now' p1
              Hu Hk1 Hm1) as (u1 & Eu1 & E2).
  assert (u1 = u).
  { rewrite (firstUnitText_labels base alt _ _ L) in Eu1. congruence. }
  subst u1. rewrite E2.
  assert (S1 : elementState f p1 =
               elementState f
                 match parseFloat (fieldValue f (fields (app p))) with
                 | NaN => p
                 | Num value =>
                     onApp (performCalculations parseFloat now)
                       (rescaled toFixed2 f base alt factor u value p)
                 end).
  { subst p1. rewrite E1. reflexivity. }
  change (elementState f
            match parseFloat (fieldValue f (fields (app p1))) with
            | NaN => p1
            | Num value =>
                onApp (performCalculations parseFloat now')
                  (rescaled toFixed2 f base alt factor u value p1)
            end = elementState f p1).
  destruct (parseFloat (fieldValue f (fields (app p1)))) as [|y] eqn:P1;
    [reflexivity|].
  rewrite elementState_run.
  destruct (parseFloat (fieldValue f (fields (app p)))) as [|x] eqn:P0.
  - (* the first click did not convert: the text is as before *)
    assert (T : fieldValue f (fields (app p1)) = fieldValue f (fields (app p)))
      by (unfold elementState in S1; congruence).
    rewrite T, P0 in P1. discriminate.
  - rewrite elementState_run in S1. rewrite S1.
    rewrite (rescaled_elementState toFixed2 f base alt factor u y p1
               (rescaled toFixed2 f base alt factor u x p)) by exact S1.
    now apply rescaled_twice.
Qed.

End UnitToggleFacts.

(** ** Sessions on the page *)

Section PageSessionFacts.

Variable parseFloat : string -> Parsed.
Variable toFixed2 : Q -> string.
Variable numberToString : Q -> string.

(** A step that leaves the theme, the history, the datasets and the
    labels of the buttons alone, and does not remove the chart, keeps
    the invariant. *)
Lemma sessionInvariant_kept (bound : nat) (p p' : Page) :
  theme p' = theme p ->
  recentCalculations (app p') = recentCalculations (app p) ->
  recentPanel (app p') = recentPanel (app p) ->
  storedCalculations (app p') = storedCalculations (app p) ->
  (energyChart (app p) <> None -> energyChart (app p') <> None) ->
  originalUnit p' = originalUnit p ->
  map label (buttons p') = map label (buttons p) ->
  sessionInvariant bound p -> sessionInvariant bound p'.
Proof.
  intros Ht Hl Hp Hs Hc Ho Hb (I1 & (T1 & T2 & T3 & T4) & I3 & I4).
  unfold sessionInvariant, historyInSync, themeCoherent in *.
  rewrite Ht, Hl, Hp, Hs, Ho. cbv zeta in *.
  split; [exact I1|]. split; [|split].
  - repeat split; auto.
  - auto.
  - intros f base alt factor Hu Hf.
    rewrite (firstUnitText_labels base alt _ _ Hb). eauto.
Qed.

Lemma run_energyChart (now : string) (s : App) :
  energyChart s <> None ->
  energyChart (exec (performCalculations parseFloat now) s) <> None.
Proof.
  intros H.
  destruct (hasValidInputs (getInputValues parseFloat (fields s))) eqn:E.
  - rewrite performCalculations_usable by assumption. cbn [energyChart].
    destruct (energyChart s); [discriminate | congruence].
  - rewrite performCalculations_not_usable by assumption. exact H.
Qed.

Lemma sessionInvariant_run (bound : nat) (now : string) (p : Page) :
  (10 <= bound)%nat ->
  sessionInvariant bound p ->
  sessionInvariant bound (onApp (performCalculations parseFloat now) p).
Proof.
  intros Hb (I1 & (T1 & T2 & T3 & T4) & I3 & I4).
  unfold sessionInvariant, onApp. cbn [app set_app buttons originalUnit].
  split; [now apply performCalculations_inSync|].
  split; [|split; [now apply run_energyChart | exact I4]].
  unfold themeCoherent in *. cbn [theme app set_app]. cbv zeta in *.
  repeat split; auto.
Qed.

Lemma sessionInvariant_rescaled (bound : nat) (f : Field)
  (base alt : string) (factor : Q) (u : string) (x : Q) (p : Page) :
  unitsOf f = Some (base, alt, factor) ->
  firstUnitText base alt (buttons p) = Some u ->
  sessionInvariant bound p ->
  sessionInvariant bound (rescaled toFixed2 f base alt factor u x p).
Proof.
  intros Hu Hfirst I.
  destruct (unitsOf_distinct f base alt factor Hu) as (Hne%String.eqb_neq & _).
  pose proof I as (I1 & (T1 & T2 & T3 & T4) & I3 & I4).
  assert (W : forall (y : Q) (unit : string),
             (unit = alt -> u = alt) -> unit = alt \/ unit = base ->
             sessionInvariant bound
               (set_originalUnit (upd5 f (Some unit) (originalUnit p))
                  (set_app (set_fields (setFieldValue f (toFixed2 y)
                                          (fields (app p))) (app p)) p))).
  { intros y unit Hunit Hwhich.
    split; [exact I1|]. split; [repeat split; auto|]. split; [exact I3|].
    intros g b' a' fac' Hg.
      cbn [buttons originalUnit set_originalUnit set_app].
    destruct (Field_eq_dec f g) as [<-|Hfg].
    - rewrite at5_upd5_same. rewrite Hu in Hg.
      injection Hg as <- <- <-. intros [= ->].
      now rewrite Hfirst, Hunit.
    - rewrite at5_upd5_other by assumption. apply (I4 g b' a' fac' Hg). }
  unfold rescaled.
  destruct (String.eqb u alt && _)%bool eqn:C1.
  - apply andb_prop in C1 as [C1%String.eqb_eq _].
    apply W; [intros _; exact C1 | now left].
  - destruct (String.eqb u base && _)%bool eqn:C2; [|exact I].
    apply W; [|now right]. intros E. now elim Hne.
Qed.

Lemma sessionInvariant_click (bound : nat) (f : Field) (k : nat)
  (now : string) (p : Page) :
  (10 <= bound)%nat ->
  sessionInvariant bound p ->
  sessionInvariant bound (clickUnit parseFloat toFixed2 f k now p).
Proof.
  intros Hb I.
  destruct (unitsOf f) as [[[base alt] factor]|] eqn:Hu;
    [|unfold clickUnit; now rewrite Hu].
  destruct (nth_error (buttons p) k) as [btn|] eqn:Hk;
    [|unfold clickUnit; now rewrite Hu, Hk].
  destruct (matchesUnits base alt btn) eqn:Hm;
    [|unfold clickUnit; now rewrite Hu, Hk, Hm].
  destruct (clickUnit_eq parseFloat toFixed2 f base alt factor k btn now p
              Hu Hk Hm) as (u & E & ->).
  set (bs := toggleUnitButtons (matchesUnits base alt) k (buttons p)).
  assert (L : map label bs = map label (buttons p))
    by apply toggleUnitButtons_labels.
  destruct (parseFloat (fieldValue f (fields (app p)))) as [|x].
  - apply (sessionInvariant_kept bound p); try reflexivity; auto.
  - set (q := onApp (performCalculations parseFloat now)
                (rescaled toFixed2 f base alt factor u x p)).
    assert (Iq : sessionInvariant bound q)
      by (apply sessionInvariant_run, sessionInvariant_rescaled; assumption).
    assert (Lq : map label (buttons q) = map label (buttons p)).
    { unfold q, onApp. cbn [buttons set_app]. unfold rescaled.
      destruct (_ && _)%bool; [reflexivity|].
      destruct (_ && _)%bool; reflexivity. }
    apply (sessionInvariant_kept bound q); try reflexivity; auto.
    cbn [buttons set_buttons]. congruence.
Qed.

Lemma sessionInvariant_reset (bound : nat) (p : Page) :
  sessionInvariant bound p -> sessionInvariant bound (resetAll p).
Proof.
  intros (I1 & (T1 & T2 & T3 & T4) & I3 & I4).
  unfold resetAll, resetUnitToggles, onApp, clearResults, exec, bind, enter,
    modify. cbn.
  destruct (energyChart (app p)) eqn:E; [|congruence].
  repeat split; cbn; try apply I1; auto; try discriminate.
  intros f base alt factor Hu.
  destruct (unitsOf_distinct f base alt factor Hu) as (_ & Hne).
  destruct f; cbn; try discriminate; intros [= H]; now elim Hne.
Qed.

Lemma validateInput_rest (f : Field) (p : Page) :
  validateInput parseFloat f p
  = set_marks (marks (validateInput parseFloat f p)) p.
Proof.
  unfold validateInput.
  destruct (String.eqb (fieldValue f (fields (app p))) empty);
    [reflexivity|].
  destruct (isNaN _ || parsedLtb _ _)%bool; reflexivity.
Qed.

Lemma sessionInvariant_step (bound : nat) (p : Page) (e : PageEvent) :
  (10 <= bound)%nat ->
  sessionInvariant bound p ->
  sessionInvariant bound (pageStep parseFloat toFixed2 numberToString p e).
Proof.
  intros Hb I. destruct e as [f text|f|now|f k now| | |localTime isoTime];
    cbn [pageStep].
  - apply (sessionInvariant_kept bound p); try reflexivity; auto.
  - rewrite validateInput_rest.
    apply (sessionInvariant_kept bound p); try reflexivity; auto.
  - now apply sessionInvariant_run.
  - now apply sessionInvariant_click.
  - now apply sessionInvariant_reset.
  - destruct I as (I1 & I2 & I3 & I4). unfold toggleTheme.
    split; [now rewrite setTheme_app|].
    split; [apply setTheme_coherent|].
    split; [now rewrite setTheme_app|].
    rewrite setTheme_rest. exact I4.
  - apply (sessionInvariant_kept bound p); try reflexivity; auto;
      unfold onApp, exec; cbn [app set_app];
      rewrite exportToCSV_run; reflexivity || auto.
Qed.

Lemma onDOMContentLoaded_originalUnit (q : Page) :
  originalUnit (onDOMContentLoaded q) = originalUnit q.
Proof.
  unfold onDOMContentLoaded, initializeChart, loadRecentCalculations,
    onApp, initializeApp. cbv zeta.
  cbn [originalUnit set_theme set_app]. rewrite setTheme_rest.
  destruct (storedCalculations
              (app (set_theme (theme (setTheme _ q)) q))); reflexivity.
Qed.

Lemma freshlyLoaded_scriptLoaded (q : Page) :
  freshlyLoaded q -> scriptLoaded q.
Proof. intros (F1 & F2 & F3 & F4 & _). repeat split; assumption. Qed.

Lemma sessionInvariant_start (q : Page) :
  scriptLoaded q ->
  sessionInvariant (Nat.max 10 (storedLength q)) (onDOMContentLoaded q).
Proof.
  intros (F1 & F2 & F3 & F4).
  unfold sessionInvariant, historyInSync, themeCoherent, storedLength.
  cbv zeta.
  rewrite onDOMContentLoaded_app, onDOMContentLoaded_theme. cbv zeta.
  cbn [recentCalculations recentPanel storedCalculations energyChart
       currentTheme data_theme storedTheme themeIcon chartPalette].
  split; [|split; [|split]].
  - destruct (storedCalculations (app q)) as [saved|].
    + split; [lia|]. split; [reflexivity|]. left. reflexivity.
    + rewrite F3. split; [cbn; lia|]. split; [reflexivity|]. right.
      split; reflexivity.
  - repeat split.
  - discriminate.
  - intros f base alt factor _.
    pose proof (onDOMContentLoaded_originalUnit q) as O.
    rewrite O, F4. destruct f; discriminate.
Qed.

Lemma sessionInvariant_reached (q : Page) (es : list PageEvent) :
  scriptLoaded q ->
  sessionInvariant (Nat.max 10 (storedLength q))
    (runPage parseFloat toFixed2 numberToString es (onDOMContentLoaded q)).
Proof.
  intros F. apply sessionInvariant_start in F. revert F.
  generalize (onDOMContentLoaded q). unfold runPage.
  induction es as [|e es IH]; intros p I; cbn [fold_left]; [exact I|].
  apply IH, sessionInvariant_step; [lia | exact I].
Qed.

(** X16.  Through a whole session.  Let the page start on a document
    whose stored history item is absent or is the JSON text of a list of
    entries, of any length.  Whatever the user then types, blurs, clicks,
    resets, toggles or exports: the panel shows exactly the log, and
    [localStorage] holds exactly the log (or nothing while the log is
    still empty); the log has at most ten entries, or as many as the
    stored history had when that was more, because the start takes a
    stored history over without trimming it; the theme is the same in the
    module variable, the [data-theme] attribute and [localStorage], with
    its icon and the chart's colours; and the chart exists. *)
Theorem session_keeps_history_and_theme (q : Page) (es : list PageEvent) :
  scriptLoaded q ->
  let p := runPage parseFloat toFixed2 numberToString es
             (onDOMContentLoaded q) in
  historyInSync (Nat.max 10 (storedLength q)) (app p) /\
  themeCoherent p /\ energyChart (app p) <> None.
Proof.
  intros F p.
  destruct (sessionInvariant_reached q es F) as (I1 & I2 & I3 & _).
  auto.
Qed.

(** X17.  Unit toggling never divides.  In every page a session
    reaches, a click on a unit button either leaves the text of its field
    as it is or replaces it by [toFixed(2)] of the parsed value times the
    factor, the latter only when the first button of the group in the
    document is the one of the alternative unit: toggling back does not
    restore the value, and with the base unit's button first no click
    converts anything. *)
Theorem unit_toggle_never_divides (q : Page) (es : list PageEvent)
  (f : Field) (k : nat) (now : string) :
  freshlyLoaded q ->
  let p := runPage parseFloat toFixed2 numberToString es
             (onDOMContentLoaded q) in
  let p' := clickUnit parseFloat toFixed2 f k now p in
  fieldValue f (fields (app p')) = fieldValue f (fields (app p)) \/
  exists base alt factor x,
    unitsOf f = Some (base, alt, factor) /\
    firstUnitText base alt (buttons p) = Some alt /\
    parseFloat (fieldValue f (fields (app p))) = Num x /\
    fieldValue f (fields (app p')) = toFixed2 (x * factor).
Proof.
  intros F p p'.
  pose proof (sessionInvariant_reached q es (freshlyLoaded_scriptLoaded q F))
    as (_ & _ & _ & I4).
  fold p in I4. subst p'.
  destruct (unitsOf f) as [[[base alt] factor]|] eqn:Hu;
    [|left; unfold clickUnit; now rewrite Hu].
  destruct (nth_error (buttons p) k) as [btn|] eqn:Hk;
    [|left; unfold clickUnit; now rewrite Hu, Hk].
  destruct (matchesUnits base alt btn) eqn:Hm;
    [|left; unfold clickUnit; now rewrite Hu, Hk, Hm].
  destruct (clickUnit_eq parseFloat toFixed2 f base alt factor k btn now p
              Hu Hk Hm) as (u & E & ->).
  cbn [app set_buttons].
  destruct (parseFloat (fieldValue f (fields (app p)))) as [|x] eqn:P;
    [now left|].
  unfold onApp. cbn [app set_app]. rewrite performCalculations_fields.
  destruct (rescaled_cases toFixed2 f base alt factor u x p)
    as [(Hua & Ho & S) | [(Hub & Ho & S) | (S & _ & _)]].
  - right. exists base, alt, factor, x. subst u.
    repeat split; auto. unfold elementState in S. congruence.
  - (* the dividing branch needs the alternative unit in the dataset
       while the first button reads the base unit *)
    exfalso. specialize (I4 f base alt factor Hu Ho).
    destruct (unitsOf_distinct f base alt factor Hu) as (Hne%String.eqb_neq & _).
    congruence.
  - left. now rewrite S.
Qed.

End PageSessionFacts.

(** ** Reset and validation *)

Section ResetFacts.

Variable parseFloat : string -> Parsed.






Lemma validateInput_mark (f : Field) (p : Page) :
  at5 f (marks (validateInput parseFloat f p)) =
    if String.eqb (fieldValue f (fields (app p))) empty then noMarks
    else if (isNaN (parseFloat (fieldValue f (fields (app p))))
             || parsedLtb (parseFloat (fieldValue f (fields (app p))))
                          (parseFloat (at5 f (minAttr p))))%bool
         then mkMarks false true
         else mkMarks true false.
Proof.
  unfold validateInput.
  destruct (String.eqb _ _); [|destruct (_ || _)%bool];
    cbn [marks set_marks]; apply at5_upd5_same.
Qed.

(** X19.  [validateInput] leaves its element with at most one of the
    marks [valid] and [invalid], whatever marks it had: none for an empty
    text; [invalid] for a text that does not parse or that parses below
    the minimum; [valid] otherwise, which includes every number when the
    [min] attribute does not parse.  No other element's marks and
    nothing of the calculator change. *)
Theorem validateInput_marks (f : Field) (p : Page) :
  let text := fieldValue f (fields (app p)) in
  let lowest := parseFloat (at5 f (minAttr p)) in
  let m := at5 f (marks (validateInput parseFloat f p)) in
  (valid m && invalid m = false) /\
  (text = empty -> m = noMarks) /\
  (text <> empty -> parseFloat text = NaN -> m = mkMarks false true) /\
  (forall x lo, text <> empty -> parseFloat text = Num x -> lowest = Num lo ->
     (x < lo -> m = mkMarks false true) /\
     (lo <= x -> m = mkMarks true false)) /\
  (forall x, text <> empty -> parseFloat text = Num x -> lowest = NaN ->
     m = mkMarks true false) /\
  (forall g, g <> f ->
     at5 g (marks (validateInput parseFloat f p)) = at5 g (marks p)) /\
  app (validateInput parseFloat f p) = app p.
Proof.
  cbv zeta. rewrite validateInput_mark.
  split.
  { destruct (String.eqb _ _); [reflexivity|].
    destruct (_ || _)%bool; reflexivity. }
  split.
  { intros ->. now rewrite String.eqb_refl. }
  split.
  { intros Hne%String.eqb_neq ->. now rewrite Hne. }
  split.
  { intros x lo Hne%String.eqb_neq -> ->. rewrite Hne.
    cbn [isNaN orb parsedLtb]. split; intros H.
    - apply JsFacts.ltb_lt in H. now rewrite H.
    - assert (L : Js.ltb x lo = false) by (apply JsFacts.ltb_nlt; lra).
      now rewrite L. }
  split.
  { intros x Hne%String.eqb_neq -> ->. now rewrite Hne. }
  split.
  { intros g Hg. unfold validateInput.
    destruct (String.eqb _ _); [|destruct (_ || _)%bool];
      cbn [marks set_marks]; apply at5_upd5_other; congruence. }
  unfold validateInput.
  destruct (String.eqb _ _); [|destruct (_ || _)%bool]; reflexivity.
Qed.

(** X20.  The mark [valid] and the Reading disagree about zero.  A
    text that parses to a number from the minimum up to zero is marked
    [valid], yet [getInputValues] gives a field that no [> 0] guard
    accepts: it counts neither for usability nor in any formula. *)
Theorem valid_mark_on_absent_field (f : Field) (p : Page) (x lo : Q) :
  fieldValue f (fields (app p)) <> empty ->
  parseFloat (fieldValue f (fields (app p))) = Num x ->
  parseFloat (at5 f (minAttr p)) = Num lo ->
  lo <= x -> x <= 0 ->
  at5 f (marks (validateInput parseFloat f p)) = mkMarks true false /\
  Js.gt0 (get f (getInputValues parseFloat (fields (app p)))) = false.
Proof.
  intros Hne Hx Hlo Hle Hzero. split.
  - unfold validateInput.
    apply String.eqb_neq in Hne. rewrite Hne, Hx, Hlo. cbn [isNaN orb parsedLtb].
    assert (L : Js.ltb x lo = false) by (apply JsFacts.ltb_nlt; lra).
    rewrite L. cbn [marks set_marks]. apply at5_upd5_same.
  - rewrite get_getInputValues, Hx. unfold orZero.
    destruct (Js.truthyNum x); [|reflexivity].
    now apply JsFacts.gt0_nonpos.
Qed.

End ResetFacts.

(** *** Runs on concrete pages *)

Lemma click_on_unparsed_field_witness :
  clickUnit parseDecimal printFixed2 Voltage 1 instant1
    (startedPage baseFirstButtons)
  = set_buttons
      (toggleUnitButtons (matchesUnits "V" "kV") 1 baseFirstButtons)
      (startedPage baseFirstButtons).
Proof.
  exact (click_on_unparsed_field parseDecimal printFixed2 Voltage
           "V" "kV" 1000 1 (mkUnitButton (Some "kV"%string) "kV" true false)
           instant1 (startedPage baseFirstButtons)
           eq_refl eq_refl eq_refl eq_refl).
Defined.

Lemma click_ignores_clicked_button_witness :
  apartFromActive
    (clickUnit parseDecimal printFixed2 Voltage 0 instant1
       (voltageTyped "2" kiloFirstButtons))
  = apartFromActive
      (clickUnit parseDecimal printFixed2 Voltage 1 instant1
         (voltageTyped "2" kiloFirstButtons)).
Proof.
  exact (click_ignores_clicked_button parseDecimal printFixed2 Voltage
           "V" "kV" 1000 0 1
           (mkUnitButton (Some "kV"%string) "kV" true false)
           (mkUnitButton (Some "V"%string) "V" true true)
           instant1 (voltageTyped "2" kiloFirstButtons)
           eq_refl eq_refl eq_refl eq_refl eq_refl).
Defined.

Lemma second_click_converts_nothing_witness :
  let p1 := clickUnit parseDecimal printFixed2 Voltage 0 instant1
              (voltageTyped "2" kiloFirstButtons) in
  elementState Voltage
    (clickUnit parseDecimal printFixed2 Voltage 1 instant2 p1)
  = elementState Voltage p1.
Proof.
  exact (second_click_converts_nothing parseDecimal printFixed2 Voltage
           "V" "kV" 1000 0 1
           (mkUnitButton (Some "kV"%string) "kV" true false)
           (mkUnitButton (Some "V"%string) "V" true true)
           instant1 instant2 (voltageTyped "2" kiloFirstButtons)
           eq_refl eq_refl eq_refl eq_refl eq_refl).
Defined.

Lemma session_keeps_history_and_theme_witness :
  historyInSync 11
    (app (runPage parseDecimal printFixed2 printFixed2
            [UserEdit Voltage "230"; ClickTheme; UserBlur Voltage]
            (onDOMContentLoaded
               (loadedPage None (Some elevenEntries) baseFirstButtons)))) /\
  historyInSync 10
    (app (runPage parseDecimal printFixed2 printFixed2
            [UserEdit Voltage "230"; UserEdit Current "2"; Run instant1;
             ClickTheme; ClickUnit Voltage 1 instant2; ClickReset;
             Run instant3]
            (onDOMContentLoaded (loadedPage None None baseFirstButtons)))).
Proof.
  split.
  - apply (session_keeps_history_and_theme parseDecimal printFixed2
             printFixed2
             (loadedPage None (Some elevenEntries) baseFirstButtons)).
    repeat split.
  - apply (session_keeps_history_and_theme parseDecimal printFixed2
             printFixed2 (loadedPage None None baseFirstButtons)).
    repeat split.
Defined.

Lemma unit_toggle_never_divides_witness :
  let p := runPage parseDecimal printFixed2 printFixed2
             [UserEdit Voltage "2"; ClickUnit Voltage 0 instant1]
             (onDOMContentLoaded (loadedPage None None kiloFirstButtons)) in
  let p' := clickUnit parseDecimal printFixed2 Voltage 1 instant2 p in
  fieldValue Voltage (fields (app p')) = fieldValue Voltage (fields (app p))
  \/ exists base alt factor x,
       unitsOf Voltage = Some (base, alt, factor) /\
       firstUnitText base alt (buttons p) = Some alt /\
       parseDecimal (fieldValue Voltage (fields (app p))) = Num x /\
       fieldValue Voltage (fields (app p')) = printFixed2 (x * factor).
Proof.
  apply (unit_toggle_never_divides parseDecimal printFixed2 printFixed2
           (loadedPage None None kiloFirstButtons)).
  repeat split.
Defined.


Lemma validateInput_marks_witness :
  at5 Voltage
    (marks (validateInput parseDecimal Voltage
              (voltageTyped "-5" baseFirstButtons)))
  = mkMarks false true.
Proof.
  refine (proj1 (proj1 (proj2 (proj2 (proj2
            (validateInput_marks parseDecimal Voltage
               (voltageTyped "-5" baseFirstButtons)))))
            (-5) 0 _ eq_refl eq_refl) _); [discriminate | reflexivity].
Defined.

Lemma valid_mark_on_absent_field_witness :
  at5 Voltage
    (marks (validateInput parseDecimal Voltage
              (voltageTyped "0" baseFirstButtons)))
  = mkMarks true false /\
  Js.gt0 (get Voltage
            (getInputValues parseDecimal
               (fields (app (voltageTyped "0" baseFirstButtons)))))
  = false.
Proof.
  apply (valid_mark_on_absent_field parseDecimal Voltage
           (voltageTyped "0" baseFirstButtons) 0 0);
    try reflexivity; try discriminate.
Defined.

(** ** Debouncing *)

Section DebounceFacts.

Variable Args : Type.
Variable wait : Z.

Implicit Types d : Debounced Args.

(** A call registers the only callback there is, for its own
    arguments. *)
Lemma executedFunction_single d (now : Z) (args : Args) :
  debounceInv d ->
  executedFunction wait now args d =
    mkDebounced (Some (nextId d)) (S (nextId d))
                [mkTimer (nextId d) (now + wait)%Z args] (invocations d).
Proof.
  intros (_ & [E | (t & E & T)]); unfold executedFunction; rewrite E.
  - destruct (timeout d); reflexivity.
  - rewrite T. cbn. now rewrite Nat.eqb_refl.
Qed.

Lemma executedFunction_inv d (now : Z) (args : Args) :
  debounceInv d -> debounceInv (executedFunction wait now args d).
Proof.
  intros I. rewrite executedFunction_single by assumption.
  split; cbn; [lia|]. right. eexists. split; reflexivity.
Qed.

Lemma fire_single d d' (now : Z) (id : nat) :
  debounceInv d -> fire now id d = Some d' ->
  exists t, pending d = [t] /\ timerId t = id /\ (due t <= now)%Z /\
            d' = mkDebounced (timeout d) (nextId d) []
                             (payload t :: invocations d).
Proof.
  intros (B & [E | (t & E & T)]); unfold fire; rewrite E; cbn;
    [discriminate|].
  destruct (timerId t =? id)%nat eqn:Hid; [|discriminate].
  destruct (due t <=? now)%Z eqn:Hdue; [|discriminate].
  intros [= <-]. exists t. apply Nat.eqb_eq in Hid. apply Z.leb_le in Hdue.
  repeat split; auto. unfold later. cbn. rewrite T. cbn.
  reflexivity.
Qed.

Lemma fire_inv d d' (now : Z) (id : nat) :
  debounceInv d -> fire now id d = Some d' -> debounceInv d'.
Proof.
  intros I H. pose proof I as (B & _).
  destruct (fire_single d d' now id I H) as (t & _ & _ & _ & ->).
  split; cbn; [exact B | now left].
Qed.

(** The state after a burst of calls: one callback, for the last
    call. *)
Lemma burst_single (calls : list (Z * Args)) (now : Z) (args : Args) d :
  debounceInv d ->
  runDebounced wait
    (map (fun c => Invoke (fst c) (snd c)) (calls ++ [(now, args)])) d
  = Some (mkDebounced (Some (nextId d + length calls)%nat)
                      (S (nextId d + length calls))
                      [mkTimer (nextId d + length calls)%nat (now + wait)%Z
                               args]
                      (invocations d)).
Proof.
  unfold runDebounced. revert d.
  induction calls as [|[t a] calls IH]; intros d I.
  - cbn. rewrite executedFunction_single by assumption.
    now rewrite Nat.add_0_r.
  - cbn [Datatypes.app map fold_left fst snd length].
    change (debounceStep wait (Some d) (Invoke t a))
      with (Some (executedFunction wait t a d)).
    rewrite IH by now apply executedFunction_inv.
    rewrite executedFunction_single by assumption. cbn.
    now rewrite Nat.add_succ_r.
Qed.

Lemma runDebounced_app (es es' : list (DebounceEvent Args)) d :
  runDebounced wait (es ++ es') d =
    match runDebounced wait es d with
    | Some d' => runDebounced wait es' d'
    | None => None
    end.
Proof.
  unfold runDebounced. rewrite fold_left_app.
  destruct (fold_left (debounceStep wait) es (Some d)); [reflexivity|].
  induction es' as [|e es' IH]; [reflexivity | exact IH].
Qed.

(** X21.  A burst of calls of a debounced function leads to one call of
    the function, with the arguments of the last call of the burst and
    not before [wait] milliseconds after it: the callbacks of the earlier
    calls are cancelled.  Whenever the host runs a callback after the
    burst, the function has been called once more, for the last
    arguments, the time is at least the time of the last call plus
    [wait], and no callback is left; and at any such time the host can
    run the callback. *)
Theorem debounce_runs_last_call_once (calls : list (Z * Args)) (now : Z)
  (args : Args) d :
  debounceInv d ->
  let burst := map (fun c => Invoke (fst c) (snd c)) (calls ++ [(now, args)]) in
  (forall (t : Z) (id : nat) d',
      runDebounced wait (burst ++ [Fire t id]) d = Some d' ->
      invocations d' = args :: invocations d /\
      (now + wait <= t)%Z /\ pending d' = []) /\
  (forall t : Z,
      (now + wait <= t)%Z ->
      exists d',
        runDebounced wait (burst ++ [Fire t (nextId d + length calls)%nat]) d
        = Some d').
Proof.
  intros I burst. subst burst. split.
  - intros t id d'. rewrite runDebounced_app, burst_single by assumption.
    unfold runDebounced. cbn [fold_left debounceStep].
    unfold fire. cbn [pending find timerId filter].
    destruct (nextId d + length calls =? id)%nat; [|discriminate].
    cbn [due negb]. destruct (now + wait <=? t)%Z eqn:Hdue; [|discriminate].
    intros [= <-]. apply Z.leb_le in Hdue. cbn.
    repeat split; auto.
  - intros t Hdue. rewrite runDebounced_app, burst_single by assumption.
    unfold runDebounced. cbn [fold_left debounceStep].
    unfold fire. cbn [pending find timerId due].
    rewrite Nat.eqb_refl. cbn [due]. apply Z.leb_le in Hdue. rewrite Hdue.
    eexists. reflexivity.
Qed.

Lemma debounceStep_none (es : list (DebounceEvent Args)) :
  fold_left (debounceStep wait) es None = None.
Proof. induction es as [|e es IH]; [reflexivity | exact IH]. Qed.

(** What a run keeps: the invariant, and calls of the function and
    registered callbacks together number at most the calls of the closure
    so far. *)
Lemma runDebounced_count (es : list (DebounceEvent Args)) d d' (n : nat) :
  debounceInv d ->
  (length (invocations d) + length (pending d) <= n)%nat ->
  runDebounced wait es d = Some d' ->
  debounceInv d' /\
  (length (invocations d') + length (pending d')
   <= n + length (filter isInvoke es))%nat.
Proof.
  unfold runDebounced. revert d n.
  induction es as [|e es IH]; intros d n I Hn H.
  - cbn in H. injection H as <-. cbn. split; [exact I | lia].
  - cbn [fold_left debounceStep] in H. destruct e as [t a|t id].
    + cbn [filter isInvoke length].
      destruct (IH (executedFunction wait t a d) (S n)) as (I' & H');
        [now apply executedFunction_inv | | exact H | split; [exact I' | lia]].
      rewrite executedFunction_single by assumption. cbn.
      destruct I as (_ & [E | (x & E & _)]); rewrite E in Hn; cbn in Hn; lia.
    + cbn [filter isInvoke].
      destruct (fire t id d) as [d1|] eqn:F;
        [|rewrite debounceStep_none in H; discriminate].
      destruct (fire_single d d1 t id I F) as (x & E & _ & _ & ->).
      eapply (IH _ n); [exact (fire_inv d _ t id I F) | | exact H].
      rewrite E in Hn. cbn in *. lia.
Qed.

(** X22.  A debounced function is never called more often than its
    closure: in every run from a new closure the calls of the function
    number at most the calls of the closure, and at most one callback is
    registered at any time. *)
Theorem debounce_never_multiplies_calls (es : list (DebounceEvent Args)) d' :
  runDebounced wait es newDebounced = Some d' ->
  (length (invocations d') <= length (filter isInvoke es))%nat /\
  (length (pending d') <= 1)%nat.
Proof.
  intros H.
  destruct (runDebounced_count es newDebounced d' 0) as (I & Hc);
    [split; cbn; auto | cbn; lia | exact H |].
  split; [cbn in Hc; lia|].
  destruct I as (_ & [E | (t & E & _)]); rewrite E; cbn; lia.
Qed.

End DebounceFacts.

Lemma debounce_runs_last_call_once_witness :
  exists d',
    runDebounced 300
      [Invoke 0 "a"%string; Invoke 100 "b"%string; Invoke 350 "c"%string;
       Fire 650 2%nat] newDebounced = Some d'.
Proof.
  apply (proj2 (debounce_runs_last_call_once string 300
                  [(0%Z, "a"%string); (100%Z, "b"%string)] 350 "c"%string
                  newDebounced (conj I (or_introl eq_refl))) 650%Z).
  lia.
Defined.

Lemma debounce_never_multiplies_calls_witness :
  (length [ "c"%string ] <= 3)%nat /\ (length (@nil (Timer string)) <= 1)%nat.
Proof.
  exact (debounce_never_multiplies_calls string 300
           [Invoke 0%Z "a"%string; Invoke 100%Z "b"%string;
            Invoke 350%Z "c"%string; Fire 650%Z 2%nat]
           (mkDebounced (Some 2%nat) 3 [] ["c"%string]) eq_refl).
Defined.

Section ListenerFacts.

Variable parseFloat : string -> Parsed.
Variable toISOString : Z -> string.

Lemma firstn_cons_firstn {A : Type} (n : nat) (a : A) (l : list A) :
  firstn n (a :: firstn n l) = firstn n (a :: l).
Proof. apply (firstn_app_firstn n [a] l). Qed.

(** X23.  Debouncing is per field.  Two edits of the same field within
    the quiet window lead to one run of the pipeline, hence at most one
    new history entry, and no second callback is left to run.  Two edits
    of two different fields lead to two runs, however close in time the
    edits are: with a usable Reading the same calculation is recorded
    twice. *)
Theorem debounce_is_per_field (s : Listening) (f g : Field)
  (x y : string) (t1 t2 t3 t4 : Z) (id1 id2 : nat) :
  debounceInv (at5 f (listeners s)) ->
  debounceInv (at5 g (listeners s)) ->
  let i := setFieldValue g y (setFieldValue f x (fields (listened s))) in
  let values := getInputValues parseFloat i in
  let entry now := mkCalculation (toISOString now) values
                                 (calculateAll values) in
  hasValidInputs values = true ->
  (f = g ->
   forall s',
     runListening parseFloat toISOString
       [InputEvent f x t1; InputEvent g y t2; TimerEvent g t3 id1] s
     = Some s' ->
     recentCalculations (listened s')
       = firstn 10 (entry t3 :: recentCalculations (listened s)) /\
     (t2 + 300 <= t3)%Z /\
     listenStep parseFloat toISOString (Some s') (TimerEvent g t4 id2) = None) /\
  (f <> g ->
   forall s',
     runListening parseFloat toISOString
       [InputEvent f x t1; InputEvent g y t2; TimerEvent f t3 id1;
        TimerEvent g t4 id2] s
     = Some s' ->
     recentCalculations (listened s')
       = firstn 10 (entry t4 :: entry t3 :: recentCalculations (listened s))).
Proof.
  intros If Ig i values entry Hvalid. split.
  - intros <- s'. unfold runListening.
    cbn [fold_left listenStep listened listeners fields set_fields].
    rewrite !at5_upd5_same.
    set (d1 := executedFunction 300 t1 tt (at5 f (listeners s))).
    assert (I1 : debounceInv d1) by now apply executedFunction_inv.
    rewrite (executedFunction_single unit 300 d1 t2 tt I1).
    set (d2 := mkDebounced _ _ _ _).
    assert (I2 : debounceInv d2).
    { split; cbn; [lia|]. right. eexists. split; reflexivity. }
    destruct (fire t3 id1 d2) as [d3|] eqn:F; [|discriminate].
    destruct (fire_single unit d2 d3 t3 id1 I2 F)
      as (t & Et & _ & Hdue & ->).
    injection Et as <-. cbn [due payload] in *.
    intros [= <-]. cbn [listened listeners].
    rewrite at5_upd5_same.
    rewrite performCalculations_log. cbn [fields set_fields]. fold i.
    fold values. rewrite Hvalid. cbn [recentCalculations set_fields].
    repeat split; auto.
  - intros Hfg s'. unfold runListening.
    cbn [fold_left listenStep listened listeners fields set_fields].
    repeat (rewrite at5_upd5_same || rewrite at5_upd5_other by congruence).
    rewrite (executedFunction_single unit 300 (at5 f (listeners s)) t1 tt If).
    rewrite (executedFunction_single unit 300 (at5 g (listeners s)) t2 tt Ig).
    set (d1 := mkDebounced (Some (nextId (at5 f (listeners s)))) _ _ _).
    set (d2 := mkDebounced (Some (nextId (at5 g (listeners s)))) _ _ _).
    destruct (fire t3 id1 d1) as [d3|] eqn:F1; [|cbn; discriminate].
    cbn [listenStep listened listeners].
    repeat (rewrite at5_upd5_same || rewrite at5_upd5_other by congruence).
    destruct (fire t4 id2 d2) as [d4|] eqn:F2; [|discriminate].
    intros [= <-]. cbn [listened].
    rewrite !performCalculations_log, !performCalculations_fields.
    cbn [fields set_fields]. fold i. fold values. rewrite Hvalid.
    cbn [recentCalculations set_fields].
    apply firstn_cons_firstn.
Qed.

End ListenerFacts.

Lemma debounce_is_per_field_witness :
  match
    runListening parseDecimal (fun _ => instant1)
      [InputEvent Voltage "230" 0; InputEvent Current "2" 100;
       TimerEvent Voltage 300 0%nat; TimerEvent Current 400 0%nat]
      (mkListening initialApp newListeners)
  with
  | Some s' => length (recentCalculations (listened s')) = 2%nat
  | None => False
  end.
Proof.
  destruct (runListening parseDecimal (fun _ => instant1)
              [InputEvent Voltage "230" 0; InputEvent Current "2" 100;
               TimerEvent Voltage 300 0%nat; TimerEvent Current 400 0%nat]
              (mkListening initialApp newListeners)) as [s'|] eqn:H.
  - rewrite (proj2 (debounce_is_per_field parseDecimal (fun _ => instant1)
                      (mkListening initialApp newListeners) Voltage Current
                      "230" "2" 0 100 300 400 0 0
                      (conj I (or_introl eq_refl))
                      (conj I (or_introl eq_refl)) eq_refl)
                   ltac:(discriminate) s' H).
    reflexivity.
  - vm_compute in H. discriminate H.
Defined.
